(** * Contract extractor: a shallow embedding of [processor.py] and
    [streamlit_app.py], and the properties of its specification.

    Python values are modelled the way the program uses them: [str] and
    [bytes] as [string], [int] as [Z], [float] as the IEEE value
    [spec_float], [None] as [option]'s [None], a parsed JSON document as
    [json], exceptions as [exn].  Code that logs, touches the file system
    or raises runs in the monad [M], a state monad over [World] whose
    results are either a value or a raised exception. *)

From Stdlib Require Import ZArith String Ascii List Bool Lia SpecFloat DecimalString
  DecimalZ DecimalPos.
From stdpp Require Import base option gmap strings list.

Set Warnings "-register-all".
Open Scope string_scope.
Open Scope Z_scope.

(** ** Python values *)

Definition bytes : Type := string.

(** An exception object: its class, [str(e)] and [__cause__]. *)
Inductive exn : Type :=
| Exn (cls : string) (msg : string) (cause : option exn).

Definition exn_class (e : exn) : string := match e with Exn c _ _ => c end.
Definition exn_str (e : exn) : string := match e with Exn _ m _ => m end.
Definition exn_cause (e : exn) : option exn := match e with Exn _ _ c => c end.

Inductive result (A : Type) : Type :=
| Ok (a : A)
| Raise (e : exn).
Arguments Ok {A} a.
Arguments Raise {A} e.

(** What [json.load] builds: [dict] keeps insertion order, keys are unique. *)
Inductive json : Type :=
| JNull
| JBool (b : bool)
| JInt (n : Z)
| JFloat (x : spec_float)
| JStr (s : string)
| JArr (items : list json)
| JObj (members : list (string * json)).

Fixpoint dict_get (k : string) (d : list (string * json)) : option json :=
  match d with
  | [] => None
  | (k', v) :: d' => if String.eqb k k' then Some v else dict_get k d'
  end.

(** [str(n)] for an [int]. *)
Definition str_int (n : Z) : string := NilZero.string_of_int (Z.to_int n).

(** [sub in s] for two [str]. *)
Fixpoint str_contains (sub s : string) : bool :=
  String.prefix sub s ||
  match s with
  | EmptyString => false
  | String _ s' => str_contains sub s'
  end.

(** The double quote character, for texts that quote a word. *)
Definition dquote : string := String (ascii_of_nat 34) EmptyString.

(** ** Formatting a float with [:.2f]

    The exact value of a finite double is [m * 2^e]; [:.2f] prints that
    value rounded to the nearest hundredth, ties to even, and keeps the
    sign of a negative zero. *)

Definition round_half_even (num den : Z) : Z :=
  let q := num / den in
  let r := num mod den in
  match 2 * r ?= den with
  | Lt => q
  | Gt => q + 1
  | Eq => if Z.even q then q else q + 1
  end.

Definition hundredths (m : positive) (e : Z) : Z :=
  if 0 <=? e then Z.pos m * 2 ^ e * 100
  else round_half_even (Z.pos m * 100) (2 ^ (- e)).

Definition digit (n : Z) : ascii := ascii_of_nat (48 + Z.to_nat n).

Definition fixed2 (negative : bool) (h : Z) : string :=
  (if negative then "-" else "") +:+ str_int (h / 100) +:+ "." +:+
  String (digit (h mod 100 / 10)) (String (digit (h mod 10)) EmptyString).

Definition format_2f (x : spec_float) : string :=
  match x with
  | S754_zero s => fixed2 s 0
  | S754_infinity s => if s then "-inf" else "inf"
  | S754_nan => "nan"
  | S754_finite s m e => fixed2 s (hundredths m e)
  end.

Definition is_finite_float (x : spec_float) : bool :=
  match x with
  | S754_zero _ | S754_finite _ _ _ => true
  | _ => false
  end.

Definition is_digit (c : ascii) : bool :=
  let n := nat_of_ascii c in (48 <=? n)%nat && (n <=? 57)%nat.

(** ** The schema: [class SoftwareContract(BaseModel)] *)

Record SoftwareContract : Type := {
  software_system_name : string;
  vendor_name_dba : string;
  vendor_name_legal : string;
  contract_start : option string;
  contract_end : option string;
  contract_period : option Z;
  auto_renewal : option bool;
  cancellation_notice_initial : option Z;
  cancellation_notice_ongoing : option Z;
  payment_terms : option string;
  payment_delay : option Z;
  payment_amount_setup : option spec_float;
  payment_amount_per_terms : option spec_float;
  sla_uptime_guarantee : option string;
  integration_clauses : option string;
  data_ownership : string;
  license_count : Z
}.

(** ** What the program takes from its libraries

    [json_load] is Python's [json] on the text of a file, [from_json] the
    parser pydantic applies to a response text, [json_dumps] is
    [json.dumps(_, indent=2)].  A JSON value of a field's own type
    validates to itself; what pydantic makes of a value of another type
    (a numeric string for an [int], say) is [coerce_int], [coerce_float]
    and [coerce_bool].  [to_html] and [to_csv] are the two pandas
    renderings of the field/value table, [mkstemp_name] is the name the
    operating system picks for a new temporary file. *)

Inductive pyval : Type :=
| VStr (s : string)
| VInt (n : Z).

Record Env : Type := {
  json_load : string -> result json;
  from_json : string -> option json;
  json_dumps : json -> string;
  coerce_int : json -> option Z;
  coerce_float : json -> option spec_float;
  coerce_bool : json -> option bool;
  to_html : list (string * pyval) -> string;
  to_csv : list (string * pyval) -> string;
  mkstemp_name : string
}.

Section Validation.
Variable env : Env.

Definition validate_str (v : json) : option string :=
  match v with
  | JStr s => Some s
  | _ => None
  end.

Definition validate_int (v : json) : option Z :=
  match v with
  | JInt n => Some n
  | _ => coerce_int env v
  end.

Definition validate_float (v : json) : option spec_float :=
  match v with
  | JFloat x => Some x
  | _ => coerce_float env v
  end.

Definition validate_bool (v : json) : option bool :=
  match v with
  | JBool b => Some b
  | _ => coerce_bool env v
  end.

(** A field declared without a default: the key must be there. *)
Definition required {A} (validate : json -> option A) (k : string)
    (d : list (string * json)) : option A :=
  match dict_get k d with
  | None => None
  | Some v => validate v
  end.

(** A field declared [Optional[T]] with [default=None]. *)
Definition optional {A} (validate : json -> option A) (k : string)
    (d : list (string * json)) : option (option A) :=
  match dict_get k d with
  | None => Some None
  | Some JNull => Some None
  | Some v => Some <$> validate v
  end.

(** A field declared [T] with [default=dflt]. *)
Definition defaulted {A} (validate : json -> option A) (k : string) (dflt : A)
    (d : list (string * json)) : option A :=
  match dict_get k d with
  | None => Some dflt
  | Some v => validate v
  end.

(** [SoftwareContract.model_validate] on a JSON object; [None] stands
    for pydantic's [ValidationError].  Keys the class does not declare
    are ignored. *)
Definition model_validate (d : list (string * json)) : option SoftwareContract :=
  f1 ← required validate_str "software_system_name" d;
  f2 ← required validate_str "vendor_name_dba" d;
  f3 ← required validate_str "vendor_name_legal" d;
  f4 ← optional validate_str "contract_start" d;
  f5 ← optional validate_str "contract_end" d;
  f6 ← optional validate_int "contract_period" d;
  f7 ← optional validate_bool "auto_renewal" d;
  f8 ← optional validate_int "cancellation_notice_initial" d;
  f9 ← optional validate_int "cancellation_notice_ongoing" d;
  f10 ← optional validate_str "payment_terms" d;
  f11 ← optional validate_int "payment_delay" d;
  f12 ← optional validate_float "payment_amount_setup" d;
  f13 ← optional validate_float "payment_amount_per_terms" d;
  f14 ← optional validate_str "sla_uptime_guarantee" d;
  f15 ← optional validate_str "integration_clauses" d;
  f16 ← defaulted validate_str "data_ownership" "DEALER" d;
  f17 ← defaulted validate_int "license_count" (-1) d;
  Some {| software_system_name := f1;
          vendor_name_dba := f2;
          vendor_name_legal := f3;
          contract_start := f4;
          contract_end := f5;
          contract_period := f6;
          auto_renewal := f7;
          cancellation_notice_initial := f8;
          cancellation_notice_ongoing := f9;
          payment_terms := f10;
          payment_delay := f11;
          payment_amount_setup := f12;
          payment_amount_per_terms := f13;
          sla_uptime_guarantee := f14;
          integration_clauses := f15;
          data_ownership := f16;
          license_count := f17 |}.

(** [SoftwareContract.model_validate_json]: a text that is no JSON
    object fails validation as well. *)
Definition model_validate_json (text : string) : option SoftwareContract :=
  match from_json env text with
  | Some (JObj d) => model_validate d
  | _ => None
  end.
End Validation.

(** ** [display_contract_data]: the field/value table

    [data_dict] is the dictionary the function builds, in insertion
    order.  Its values are [str], except that a non-zero payment delay is
    stored as the [int] itself. *)

Definition truthy_str (s : string) : bool := negb (String.eqb s "").

(** [s or dflt] for a [str]. *)
Definition str_or (s dflt : string) : string := if truthy_str s then s else dflt.

(** [x if x else "NULL"] for an [Optional[str]]. *)
Definition str_if_truthy (x : option string) : pyval :=
  match x with
  | Some s => if truthy_str s then VStr s else VStr "NULL"
  | None => VStr "NULL"
  end.

(** [x if x else "NULL"] for an [Optional[int]]: zero is falsy. *)
Definition int_if_truthy (x : option Z) : pyval :=
  match x with
  | Some n => if n =? 0 then VStr "NULL" else VInt n
  | None => VStr "NULL"
  end.

(** [str(x) if x is not None else "NULL"]. *)
Definition str_if_not_none (x : option Z) : pyval :=
  match x with
  | Some n => VStr (str_int n)
  | None => VStr "NULL"
  end.

Definition months_if_not_none (x : option Z) : pyval :=
  match x with
  | Some n => VStr (str_int n +:+ " months")
  | None => VStr "NULL"
  end.

Definition dollars_if_not_none (x : option spec_float) : pyval :=
  match x with
  | Some a => VStr ("$" +:+ format_2f a)
  | None => VStr "NULL"
  end.

Definition tristate (x : option bool) : pyval :=
  match x with
  | Some true => VStr "TRUE"
  | Some false => VStr "FALSE"
  | None => VStr "NULL"
  end.

Definition data_dict (contract_data : SoftwareContract) : list (string * pyval) :=
  [ ("Software/System Name", VStr (str_or (software_system_name contract_data) "NULL"));
    ("Vendor Name (DOING BUSINESS AS)", VStr (str_or (vendor_name_dba contract_data) "NULL"));
    ("Vendor Name (LEGAL ENTITY)", VStr (str_or (vendor_name_legal contract_data) "NULL"));
    ("Contract Start", str_if_truthy (contract_start contract_data));
    ("Contract End", str_if_truthy (contract_end contract_data));
    ("Contract Period", months_if_not_none (contract_period contract_data));
    ("Auto-renewal", tristate (auto_renewal contract_data));
    ("Cancellation Notice (INITIAL TERM, DAYS)",
       str_if_not_none (cancellation_notice_initial contract_data));
    ("Cancellation Notice (ONGOING, DAYS)",
       str_if_not_none (cancellation_notice_ongoing contract_data));
    ("Payment Terms", str_if_truthy (payment_terms contract_data));
    ("Payment Delay", int_if_truthy (payment_delay contract_data));
    ("Payment amount, setup fee", dollars_if_not_none (payment_amount_setup contract_data));
    ("Payment amount per terms", dollars_if_not_none (payment_amount_per_terms contract_data));
    ("SLA/Uptime Guarantee", str_if_truthy (sla_uptime_guarantee contract_data));
    ("Integration Clauses", str_if_truthy (integration_clauses contract_data));
    ("Data Ownership", VStr (str_or (data_ownership contract_data) "DEALER"));
    ("License Count",
       if license_count contract_data =? -1 then VStr "Unlimited"
       else VStr (str_int (license_count contract_data))) ].

(** The value shown in the row of a field. *)
Fixpoint row (field : string) (rows : list (string * pyval)) : option pyval :=
  match rows with
  | [] => None
  | (k, v) :: rows' => if String.eqb field k then Some v else row field rows'
  end.

Definition json_of_pyval (v : pyval) : json :=
  match v with
  | VStr s => JStr s
  | VInt n => JInt n
  end.

(** What the function puts on the page, in order. *)
Inductive widget : Type :=
| Subheader (text : string)
| Markdown (text : string)
| Html (text : string)
| DownloadButton (label data file_name mime : string).

Definition table_css : string :=
  "<style>.contract-table { width: 100%; border-collapse: collapse; } .contract-table th { background-color: #f0f2f6; padding: 12px; text-align: left; font-weight: bold; border-bottom: 2px solid #ddd; } .contract-table td { padding: 12px; border-bottom: 1px solid #ddd; } .contract-table tr:hover { background-color: #f5f5f5; }</style>".

Definition display_contract_data (env : Env) (contract_data : SoftwareContract)
    : list widget :=
  let d := data_dict contract_data in
  [ Subheader "Extracted Contract Information";
    Markdown "### Contract Details";
    Html (to_html env d);
    Markdown "### Export Options";
    DownloadButton "📥 Download as CSV" (to_csv env d) "contract_data.csv" "text/csv";
    DownloadButton "📥 Download as JSON"
      (json_dumps env (JObj (map (fun kv => (fst kv, json_of_pyval (snd kv))) d)))
      "contract_data.json" "application/json";
    Markdown table_css ].

(** The optional fields of the schema, by the label of their row. *)
Definition optional_labels : list string :=
  [ "Contract Start"; "Contract End"; "Contract Period"; "Auto-renewal";
    "Cancellation Notice (INITIAL TERM, DAYS)"; "Cancellation Notice (ONGOING, DAYS)";
    "Payment Terms"; "Payment Delay"; "Payment amount, setup fee";
    "Payment amount per terms"; "SLA/Uptime Guarantee"; "Integration Clauses" ].

Definition all_optional_absent (c : SoftwareContract) : Prop :=
  contract_start c = None /\ contract_end c = None /\ contract_period c = None /\
  auto_renewal c = None /\ cancellation_notice_initial c = None /\
  cancellation_notice_ongoing c = None /\ payment_terms c = None /\
  payment_delay c = None /\ payment_amount_setup c = None /\
  payment_amount_per_terms c = None /\ sla_uptime_guarantee c = None /\
  integration_clauses c = None.

(** A text that ends in a point and exactly two decimal digits. *)
Definition two_decimals (s : string) : Prop :=
  exists whole d1 d2,
    s = whole +:+ "." +:+ String d1 (String d2 EmptyString) /\
    is_digit d1 = true /\ is_digit d2 = true.

Definition sample_contract : SoftwareContract :=
  {| software_system_name := "DealerTrack";
     vendor_name_dba := "Acme";
     vendor_name_legal := "Acme Software LLC";
     contract_start := None; contract_end := None; contract_period := None;
     auto_renewal := None; cancellation_notice_initial := None;
     cancellation_notice_ongoing := None; payment_terms := None;
     payment_delay := None; payment_amount_setup := None;
     payment_amount_per_terms := None; sla_uptime_guarantee := None;
     integration_clauses := None; data_ownership := "DEALER"; license_count := -1 |}.


(** ** The world: files, free disk space and the log *)

Inductive node : Type :=
| File (content : bytes)
| Directory.

Inductive level : Type := INFO | WARNING | ERROR.

Record World : Type := {
  fs : gmap string node;
  disk_free : N;
  log : list (level * string)
}.

Definition set_fs (f : gmap string node) (free : N) (w : World) : World :=
  {| fs := f; disk_free := free; log := log w |}.

Definition add_log (lvl : level) (msg : string) (w : World) : World :=
  {| fs := fs w; disk_free := disk_free w; log := (log w ++ [(lvl, msg)])%list |}.

(** ** The monad of effectful code

    A computation takes the state and gives a value or a raised
    exception, with the state it leaves behind: what was written or
    logged before an exception stays. *)

Definition M (S A : Type) : Type := S -> result A * S.

#[export] Instance M_ret {S} : MRet (M S) := fun A a s => (Ok a, s).

#[export] Instance M_bind {S} : MBind (M S) := fun A B k m s =>
  match m s with
  | (Ok a, s') => k a s'
  | (Raise e, s') => (Raise e, s')
  end.

Definition raise {S A} (e : exn) : M S A := fun s => (Raise e, s).

Definition of_result {S A} (r : result A) : M S A := fun s => (r, s).

(** [try: body  except Exception as e: handler e]. *)
Definition try_except {S A} (body : M S A) (handler : exn -> M S A) : M S A :=
  fun s =>
    match body s with
    | (Ok a, s') => (Ok a, s')
    | (Raise e, s') => handler e s'
    end.

(** [try: body  finally: cleanup]: the cleanup runs on both exits, and an
    exception of its own replaces the outcome of the body. *)
Definition try_finally {S A} (body : M S A) (cleanup : M S unit) : M S A :=
  fun s =>
    match body s with
    | (r, s') =>
        match cleanup s' with
        | (Ok _, s'') => (r, s'')
        | (Raise e, s'') => (Raise e, s'')
        end
    end.

(** A function body with one local variable of type [L] next to the
    world: [lift] runs world code inside it, [run_local] runs the body
    from an initial value of the variable and hands back the world. *)
Definition lift {L A} (m : M World A) : M (World * L) A :=
  fun s =>
    match m (fst s) with
    | (r, w') => (r, (w', snd s))
    end.

Definition get_local {L} : M (World * L) L := fun s => (Ok (snd s), s).

Definition put_local {L} (l : L) : M (World * L) unit := fun s => (Ok tt, (fst s, l)).

Definition run_local {L A} (init : L) (m : M (World * L) A) : M World A :=
  fun w =>
    match m (w, init) with
    | (r, s') => (r, fst s')
    end.

(** [for x in xs: body x]. *)
Fixpoint for_each {S A} (xs : list A) (body : A -> M S unit) : M S unit :=
  match xs with
  | [] => mret tt
  | x :: xs' => body x ;; for_each xs' body
  end.

(** *** Logging *)

Definition logger_info (msg : string) : M World unit := fun w => (Ok tt, add_log INFO msg w).
Definition logger_warning (msg : string) : M World unit := fun w => (Ok tt, add_log WARNING msg w).
Definition logger_error (msg : string) : M World unit := fun w => (Ok tt, add_log ERROR msg w).

(** *** Files *)

(** [os.path.exists] and [Path.exists]. *)
Definition path_exists (p : string) : M World bool :=
  fun w => (Ok (bool_decide (is_Some (fs w !! p))), w).

(** [open(p).read()] and [Path(p).read_bytes()]. *)
Definition read_file (p : string) : M World bytes :=
  fun w =>
    match fs w !! p with
    | Some (File c) => (Ok c, w)
    | Some Directory => (Raise (Exn "IsADirectoryError" ("[Errno 21] Is a directory: '" +:+ p +:+ "'") None), w)
    | None => (Raise (Exn "FileNotFoundError" ("[Errno 2] No such file or directory: '" +:+ p +:+ "'") None), w)
    end.

Definition nbytes (b : bytes) : N := N.of_nat (String.length b).

(** [tempfile.NamedTemporaryFile(delete=False, suffix=suffix)] creates an
    empty file under a name that is not taken. *)
Definition create_temporary_file (env : Env) (suffix : string) : M World string :=
  fun w =>
    let name := mkstemp_name env +:+ suffix in
    match fs w !! name with
    | Some _ => (Raise (Exn "FileExistsError" "[Errno 17] No usable temporary file name found" None), w)
    | None => (Ok name, set_fs (<[name := File ""]> (fs w)) (disk_free w) w)
    end.

(** [temp_file.write(data)]: the bytes reach the disk if there is room
    for them. *)
Definition write_file (name : string) (data : bytes) : M World unit :=
  fun w =>
    match fs w !! name with
    | Some (File c) =>
        if (nbytes data <=? disk_free w)%N
        then (Ok tt, set_fs (<[name := File (c +:+ data)]> (fs w)) (disk_free w - nbytes data)%N w)
        else (Raise (Exn "OSError" "[Errno 28] No space left on device" None), w)
    | _ => (Raise (Exn "ValueError" "I/O operation on closed file." None), w)
    end.

(** [os.unlink]. *)
Definition os_unlink (p : string) : M World unit :=
  fun w =>
    match fs w !! p with
    | Some (File c) => (Ok tt, set_fs (delete p (fs w)) (disk_free w + nbytes c)%N w)
    | Some Directory => (Raise (Exn "IsADirectoryError" ("[Errno 21] Is a directory: '" +:+ p +:+ "'") None), w)
    | None => (Raise (Exn "FileNotFoundError" ("[Errno 2] No such file or directory: '" +:+ p +:+ "'") None), w)
    end.

(** *** Python operations on parsed JSON *)

Definition type_name (v : json) : string :=
  match v with
  | JNull => "NoneType"
  | JBool _ => "bool"
  | JInt _ => "int"
  | JFloat _ => "float"
  | JStr _ => "str"
  | JArr _ => "list"
  | JObj _ => "dict"
  end.

(** [v.get(k, dflt)]: only a [dict] has the method. *)
Definition py_get (v : json) (k : string) (dflt : json) : result json :=
  match v with
  | JObj d => Ok (default dflt (dict_get k d))
  | _ => Raise (Exn "AttributeError" ("'" +:+ type_name v +:+ "' object has no attribute 'get'") None)
  end.

(** [k in v]: a key of a [dict], an item of a [list], a substring of a [str]. *)
Definition py_in (k : string) (v : json) : result bool :=
  match v with
  | JObj d => Ok (bool_decide (is_Some (dict_get k d)))
  | JArr items => Ok (existsb (fun x => match x with JStr s => String.eqb s k | _ => false end) items)
  | JStr s => Ok (str_contains k s)
  | _ => Raise (Exn "TypeError" ("argument of type '" +:+ type_name v +:+ "' is not iterable") None)
  end.

(** [v[k]] for a [str] key. *)
Definition py_getitem (v : json) (k : string) : result json :=
  match v with
  | JObj d =>
      match dict_get k d with
      | Some x => Ok x
      | None => Raise (Exn "KeyError" ("'" +:+ k +:+ "'") None)
      end
  | _ => Raise (Exn "TypeError" ("'" +:+ type_name v +:+ "' object is not subscriptable with a str") None)
  end.

(** [Path(v)]: the argument has to be a [str].  The file system is
    keyed by the text of a path, taken as it is. *)
Definition Path (v : json) : result string :=
  match v with
  | JStr s => Ok s
  | _ => Raise (Exn "TypeError" ("expected str, bytes or os.PathLike object, not " +:+ type_name v) None)
  end.

Fixpoint chars (s : string) : list json :=
  match s with
  | EmptyString => []
  | String c s' => JStr (String c EmptyString) :: chars s'
  end.

(** What [for example in v] goes through: the items of a [list], the
    keys of a [dict], the characters of a [str]. *)
Definition py_iter (v : json) : result (list json) :=
  match v with
  | JArr items => Ok items
  | JObj d => Ok (map (fun kv => JStr (fst kv)) d)
  | JStr s => Ok (chars s)
  | _ => Raise (Exn "TypeError" ("'" +:+ type_name v +:+ "' object is not iterable") None)
  end.

(** ** The request to the model *)

Record Part : Type := { data : bytes; mime_type : string }.

Inductive content : Type :=
| CText (text : string)
| CPart (part : Part).

Record Request : Type := {
  model : string;
  contents : list content;
  response_mime_type : string;
  response_schema : string
}.

Record Response : Type := { text : string }.

(** [response.parsed]: the client library validates the text against the
    schema class and leaves [None] when that fails. *)
Definition parsed (env : Env) (response : Response) : option SoftwareContract :=
  model_validate_json env (text response).

(** ** [class ContractExtractor] *)

Record ContractExtractor : Type := {
  client : Request -> result Response;
  few_shot_examples_path : option string;
  system_prompt : string;
  main_prompt : string
}.

Definition the_system_prompt : string :=
  "
        You are an AI assistant specialized in extracting specific information from software contracts.
        Extract EXACTLY these fields from the contract. Pay close attention to the exact field names and data types.

        1. Software/System Name: The name of the product or service
        2. Vendor Name (DBA): Company name doing business as
        3. Vendor Name (Legal Entity): Legal entity name of the company
        4. Contract Start: Start date of the contract (format: YYYY-MM-DD)
        5. Contract End: End date of the contract (can be NULL if not specified)
        6. Contract Period: Duration in months (integer)
        7. Auto-renewal: Is the contract automatically renewed? (boolean: true/false)
        8. Cancellation Notice (Initial Term): Days required to cancel during initial term (integer)
        9. Cancellation Notice (Ongoing): Days required to cancel after initial term (integer)
        10. Payment Terms: Monthly, yearly, per user subscription, per license, or other
        11. Payment Amount Setup Fee: One-time setup fee amount (float)
        12. Payment Amount Per Terms: Recurring payment amount (float)
        13. SLA/Uptime Guarantee: Any service level agreement terms (can be NULL)
        14. Integration Clauses: Compatibility with DMS/CRM systems
        15. Data Ownership: Who owns the data (default to " +:+ dquote +:+
  "DEALER" +:+ dquote +:+
  " if not specified)
        16. License Count: Number of licenses/users/seats (use -1 for unlimited)

        IMPORTANT:
        - Use NULL for missing string values
        - Use null for missing date values
        - Use appropriate data types (string, integer, float, boolean)
        - For License Count, if unlimited or not specified, use -1
        - For Data Ownership, if not specified, default to " +:+ dquote +:+
  "DEALER" +:+ dquote +:+
  "
        - Extract dates in YYYY-MM-DD format
        - For payment amounts, extract numeric values only (no currency symbols)
        ".

Definition the_main_prompt : string :=
  "Please extract the contract information from the attached PDF document according to the specified fields.".

(** [ContractExtractor.__init__]; the client is the one built from the
    API key. *)
Definition ContractExtractor_init (c : Request -> result Response)
    (path : option string) : ContractExtractor :=
  {| client := c;
     few_shot_examples_path := path;
     system_prompt := the_system_prompt;
     main_prompt := the_main_prompt |}.

(** A Streamlit upload is an in-memory buffer; [getvalue] fails on a
    closed one. *)
Record UploadedFile : Type := { buffer : bytes; closed : bool }.

Definition getvalue (f : UploadedFile) : result bytes :=
  if closed f then Raise (Exn "ValueError" "I/O operation on closed file." None)
  else Ok (buffer f).

Section Extractor.
Variable env : Env.
Variable self : ContractExtractor.

(** One turn of the loop over the examples of the manifest; the local
    variable is the list [few_shot_examples]. *)
Definition example_step (example : json) : M (World * list content) unit :=
  expected ← of_result (py_get example "expected_output" (JObj []));
  vehicle ← of_result (py_in "vehicle_vin" expected);
  if (vehicle : bool) then
    lift (logger_info "Skipping vehicle title example - not applicable for software contracts")
  else
    pdf_path ← of_result (py_getitem example "pdf_path");
    filepath ← of_result (Path pdf_path);
    found ← lift (path_exists filepath);
    if (found : bool) then
      model_output ← of_result (py_get example "expected_output" (JObj []));
      pdf ← lift (read_file filepath);
      few_shot_examples ← get_local;
      put_local (few_shot_examples ++
        [ CText "Please extract the contract information from the following PDF";
          CPart {| data := pdf; mime_type := "application/pdf" |};
          CText (json_dumps env model_output) ])%list
    else
      lift (logger_warning ("Example PDF file not found: " +:+ filepath)).

(** The body of the [try]: open the manifest, parse it, loop. *)
Definition load_examples (path : string) : M (World * list content) unit :=
  manifest ← lift (read_file path);
  examples ← of_result (json_load env manifest);
  items ← of_result (py_iter examples);
  for_each items example_step.

Definition create_few_shot_examples : M World (list content) :=
  match few_shot_examples_path self with
  | None => mret []
  | Some path =>
      if negb (truthy_str path) then mret []
      else
        found ← path_exists path;
        if negb found then mret []
        else
          run_local []
            (try_except (load_examples path)
               (fun e => lift (logger_warning
                  ("Could not load few-shot examples: " +:+ exn_str e)));;
             get_local)
  end.

Definition build_request (few_shot_examples : list content) (pdf_data : bytes)
    : Request :=
  {| model := "models/gemini-2.0-flash";
     contents :=
       ([CText (system_prompt self)] ++ few_shot_examples ++
        [CPart {| data := pdf_data; mime_type := "application/pdf" |};
         CText (main_prompt self)])%list;
     response_mime_type := "application/json";
     response_schema := "SoftwareContract" |}.

(** The function returns [response.parsed] as it is: a record, or
    [None]. *)
Definition extract_data_from_pdf (pdf_data : bytes)
    : M World (option SoftwareContract) :=
  try_except
    (few_shot_examples ← create_few_shot_examples;
     response ← of_result (client self (build_request few_shot_examples pdf_data));
     mret (parsed env response))
    (fun e =>
       logger_error ("Error extracting contract data from PDF: " +:+ exn_str e);;
       raise e).

Definition extract_data_from_file (pdf_file_path : string)
    : M World (option SoftwareContract) :=
  pdf_data ← read_file pdf_file_path;
  extract_data_from_pdf pdf_data.

Definition extract_data_from_uploaded_file (uploaded_file : UploadedFile)
    : M World (option SoftwareContract) :=
  temp_file_path ←
    (temp_file ← create_temporary_file env ".pdf";
     value ← of_result (getvalue uploaded_file);
     write_file temp_file value;;
     mret temp_file);
  try_finally (extract_data_from_file temp_file_path) (os_unlink temp_file_path).
End Extractor.

(** ** Test fixtures: JSON texts and an environment that parses them *)

(** The compact JSON text of a value whose strings need no escaping;
    a float is written with two decimals. *)
Fixpoint json_text (v : json) : string :=
  match v with
  | JNull => "null"
  | JBool true => "true"
  | JBool false => "false"
  | JInt n => str_int n
  | JFloat x => format_2f x
  | JStr s => dquote +:+ s +:+ dquote
  | JArr items =>
      "[" +:+
      (fix go (l : list json) : string :=
         match l with
         | [] => ""
         | [x] => json_text x
         | x :: l' => json_text x +:+ ", " +:+ go l'
         end) items +:+ "]"
  | JObj members =>
      "{" +:+
      (fix go (l : list (string * json)) : string :=
         match l with
         | [] => ""
         | [(k, x)] => dquote +:+ k +:+ dquote +:+ ": " +:+ json_text x
         | (k, x) :: l' => dquote +:+ k +:+ dquote +:+ ": " +:+ json_text x +:+ ", " +:+ go l'
         end) members +:+ "}"
  end.

Definition parse_known (documents : list json) (t : string) : option json :=
  find (fun v => String.eqb (json_text v) t) documents.

(** An environment whose parsers accept the texts of [documents] and
    nothing else, and whose pydantic coerces nothing. *)
Definition test_env (documents : list json) : Env :=
  {| json_load := fun t =>
       match parse_known documents t with
       | Some v => Ok v
       | None => Raise (Exn "JSONDecodeError" "Expecting value: line 1 column 1 (char 0)" None)
       end;
     from_json := parse_known documents;
     json_dumps := json_text;
     coerce_int := fun _ => None;
     coerce_float := fun _ => None;
     coerce_bool := fun _ => None;
     to_html := fun _ => "<table></table>";
     to_csv := fun _ => "Field,Value";
     mkstemp_name := "/tmp/tmpk3v9x2qa" |}.

Definition empty_world : World := {| fs := ∅; disk_free := 1000; log := [] |}.

(** A contract whose optional fields hold the falsy value of their type. *)
Definition zero_contract : SoftwareContract :=
  {| software_system_name := "";
     vendor_name_dba := "";
     vendor_name_legal := "";
     contract_start := Some ""; contract_end := Some ""; contract_period := Some 0;
     auto_renewal := Some false; cancellation_notice_initial := Some 0;
     cancellation_notice_ongoing := Some 0; payment_terms := Some "";
     payment_delay := Some 0; payment_amount_setup := Some (S754_zero false);
     payment_amount_per_terms := Some (S754_zero false); sla_uptime_guarantee := Some "";
     integration_clauses := Some ""; data_ownership := ""; license_count := 0 |}.

(** ** Auxiliary notions for the statements *)

(** The world with more lines in its log. *)
Definition log_ext (w : World) (entries : list (level * string)) : World :=
  {| fs := fs w; disk_free := disk_free w; log := (log w ++ entries)%list |}.

(** The path an example of the manifest names, when it names one. *)
Definition pdf_path_of (example : json) : option string :=
  match example with
  | JObj d =>
      match dict_get "pdf_path" d with
      | Some (JStr p) => Some p
      | _ => None
      end
  | _ => None
  end.

(** What the loop over [examples] leaves in [few_shot_examples] when it
    starts from the empty list in world [w]. *)
Definition collected (env : Env) (examples : list json) (w : World) : list content :=
  snd (snd (for_each examples (example_step env) (w, []))).

(** The items the loop of [create_few_shot_examples] goes through. *)
Definition manifest_items (env : Env) (self : ContractExtractor) (w : World) : list json :=
  match few_shot_examples_path self with
  | Some path =>
      if truthy_str path then
        match fs w !! path with
        | Some (File manifest) =>
            match json_load env manifest with
            | Ok examples =>
                match py_iter examples with
                | Ok items => items
                | Raise _ => []
                end
            | Raise _ => []
            end
        | _ => []
        end
      else []
  | None => []
  end.

(** The paths [create_few_shot_examples] looks at: the manifest and the
    files its examples name. *)
Definition few_shot_paths (env : Env) (self : ContractExtractor) (w : World) : list string :=
  match few_shot_examples_path self with
  | Some path => path :: omap pdf_path_of (manifest_items env self w)
  | None => []
  end.

(** The world once the upload is staged under [name]. *)
Definition staged (name : string) (value : bytes) (w : World) : World :=
  set_fs (<[name := File value]> (fs w)) (disk_free w - nbytes value)%N w.

(** An example the guard on vehicle titles skips: its expected output is
    an object with the key [vehicle_vin]. *)
Definition has_vehicle_vin (example : json) : Prop :=
  exists d expected,
    example = JObj d /\
    dict_get "expected_output" d = Some (JObj expected) /\
    is_Some (dict_get "vehicle_vin" expected).

(** An example that gets past that guard: an object whose expected
    output is absent or an object without the key. *)
Definition passes_vehicle_guard (example : json) : Prop :=
  exists d,
    example = JObj d /\
    (dict_get "expected_output" d = None \/
     exists expected,
       dict_get "expected_output" d = Some (JObj expected) /\
       dict_get "vehicle_vin" expected = None).

(** A key that is none of the fields of the schema. *)
Definition schema_fields : list string :=
  [ "software_system_name"; "vendor_name_dba"; "vendor_name_legal"; "contract_start";
    "contract_end"; "contract_period"; "auto_renewal"; "cancellation_notice_initial";
    "cancellation_notice_ongoing"; "payment_terms"; "payment_delay";
    "payment_amount_setup"; "payment_amount_per_terms"; "sla_uptime_guarantee";
    "integration_clauses"; "data_ownership"; "license_count" ].


(** *** Manifests and worlds for the examples below *)

Definition contract_example : json :=
  JObj [ ("pdf_path", JStr "examples/contract.pdf");
         ("expected_output", JObj [ ("software_system_name", JStr "DealerTrack");
                                    ("vendor_name_dba", JStr "Acme");
                                    ("vendor_name_legal", JStr "Acme Software LLC") ]) ].

(** The expected output of another extraction task: a foreign key, but
    not [vehicle_vin]. *)
Definition foreign_example : json :=
  JObj [ ("pdf_path", JStr "examples/lease.pdf");
         ("expected_output", JObj [ ("patient_id", JStr "P-17") ]) ].

Definition vehicle_example : json :=
  JObj [ ("pdf_path", JStr "examples/title.pdf");
         ("expected_output", JObj [ ("vehicle_vin", JStr "1HGCM82633A004352") ]) ].

Definition missing_example : json :=
  JObj [ ("pdf_path", JStr "examples/missing.pdf");
         ("expected_output", JObj [ ("software_system_name", JStr "Reynolds") ]) ].

Definition vehicle_missing_example : json :=
  JObj [ ("pdf_path", JStr "examples/missing.pdf");
         ("expected_output", JObj [ ("vehicle_vin", JStr "1HGCM82633A004352") ]) ].

(** An example without the key [pdf_path]. *)
Definition broken_example : json :=
  JObj [ ("expected_output", JObj [ ("software_system_name", JStr "CDK") ]) ].

(** *** Replies of the model *)

Definition required_members : list (string * json) :=
  [ ("software_system_name", JStr "DealerTrack");
    ("vendor_name_dba", JStr "Acme");
    ("vendor_name_legal", JStr "Acme Software LLC") ].

(** A reply that leaves both defaulted keys out. *)
Definition reply_minimal : json := JObj required_members.

(** A reply that spells the two default values out, as the system prompt
    asks the model to. *)
Definition reply_explicit : json :=
  JObj (required_members ++
        [ ("data_ownership", JStr "DEALER"); ("license_count", JInt (-1)) ])%list.

(** A reply whose data ownership is the empty string. *)
Definition reply_empty_owner : json :=
  JObj (required_members ++ [ ("data_ownership", JStr "") ])%list.

Definition record_of (owner : string) (licenses : Z) : SoftwareContract :=
  {| software_system_name := "DealerTrack";
     vendor_name_dba := "Acme";
     vendor_name_legal := "Acme Software LLC";
     contract_start := None; contract_end := None; contract_period := None;
     auto_renewal := None; cancellation_notice_initial := None;
     cancellation_notice_ongoing := None; payment_terms := None;
     payment_delay := None; payment_amount_setup := None;
     payment_amount_per_terms := None; sla_uptime_guarantee := None;
     integration_clauses := None; data_ownership := owner; license_count := licenses |}.

(** A client whose model answers every request with the text of [reply]. *)
Definition answering (reply : json) : Request -> result Response :=
  fun _ => Ok {| text := json_text reply |}.

Definition known_documents : list json :=
  [ reply_minimal; reply_explicit; reply_empty_owner;
    JArr [foreign_example];
    JArr [vehicle_missing_example];
    JArr [contract_example; vehicle_example; contract_example];
    JArr [contract_example; missing_example; contract_example];
    JArr [contract_example; broken_example; contract_example] ].

Definition env0 : Env := test_env known_documents.

(** A world whose manifest [examples.json] holds the text of [manifest]. *)
Definition world_with (manifest : string) : World :=
  {| fs := {[ "examples.json" := File manifest;
              "examples/contract.pdf" := File "%PDF-1.4 contract";
              "examples/lease.pdf" := File "%PDF-1.4 lease";
              "examples/title.pdf" := File "%PDF-1.4 title";
              "examples" := Directory ]};
     disk_free := 1000;
     log := [] |}.

Definition silent_client : Request -> result Response :=
  fun _ => Raise (Exn "ConnectionError" "Connection refused" None).

Definition extractor0 : ContractExtractor :=
  ContractExtractor_init silent_client (Some "examples.json").

(** *** Uploads *)

Definition upload : UploadedFile := {| buffer := "%PDF-1.4 contract"; closed := false |}.

Definition closed_upload : UploadedFile := {| buffer := "%PDF-1.4 contract"; closed := true |}.

(** A world whose temporary directory has room for four more bytes. *)
Definition full_world : World := {| fs := ∅; disk_free := 4; log := [] |}.

Definition temp_path : string := "/tmp/tmpk3v9x2qa.pdf".

(** ** [streamlit_app.py]: the page

    What the script puts on the page is a list of elements, each in the
    main flow or in one of the two columns.  The script runs in the monad
    over the world and that list. *)

(** [base64.b64encode(_).decode('utf-8')]: the standard alphabet, three
    bytes to four characters, padded with [=]. *)
Definition b64_char (i : N) : ascii :=
  if (i <? 26)%N then ascii_of_N (65 + i)
  else if (i <? 52)%N then ascii_of_N (97 + (i - 26))
  else if (i <? 62)%N then ascii_of_N (48 + (i - 52))
  else if (i =? 62)%N then "+"%char
  else "/"%char.

Fixpoint b64encode (b : bytes) : string :=
  match b with
  | String x (String y (String z rest)) =>
      let n := (N_of_ascii x * 65536 + N_of_ascii y * 256 + N_of_ascii z)%N in
      String (b64_char (n / 262144))
        (String (b64_char (n / 4096 mod 64))
           (String (b64_char (n / 64 mod 64))
              (String (b64_char (n mod 64)) (b64encode rest))))
  | String x (String y EmptyString) =>
      let n := (N_of_ascii x * 1024 + N_of_ascii y * 4)%N in
      String (b64_char (n / 4096))
        (String (b64_char (n / 64 mod 64))
           (String (b64_char (n mod 64)) "="))
  | String x EmptyString =>
      let n := (N_of_ascii x * 16)%N in
      String (b64_char (n / 64)) (String (b64_char (n mod 64)) "==")
  | EmptyString => ""
  end.

(** The value of a character of the alphabet. *)
Definition b64_index (c : ascii) : option N :=
  let n := N_of_ascii c in
  if (65 <=? n)%N && (n <=? 90)%N then Some (n - 65)%N
  else if (97 <=? n)%N && (n <=? 122)%N then Some (n - 97 + 26)%N
  else if (48 <=? n)%N && (n <=? 57)%N then Some (n - 48 + 52)%N
  else if (n =? 43)%N then Some 62%N
  else if (n =? 47)%N then Some 63%N
  else None.

Definition is_b64_char (c : ascii) : bool :=
  match b64_index c with
  | Some _ => true
  | None => Ascii.eqb c "="
  end.

(** The browser's [atob] on a padded text, followed by the loop of the
    viewer that copies [charCodeAt(i)] into the byte array. *)
Fixpoint atob (s : string) : option bytes :=
  match s with
  | EmptyString => Some EmptyString
  | String c1 (String c2 (String c3 (String c4 rest))) =>
      i1 ← b64_index c1;
      i2 ← b64_index c2;
      if Ascii.eqb c4 "=" then
        match rest with
        | EmptyString =>
            if Ascii.eqb c3 "=" then
              Some (String (ascii_of_N (i1 * 4 + i2 / 16)) EmptyString)
            else
              i3 ← b64_index c3;
              Some (String (ascii_of_N (i1 * 4 + i2 / 16))
                      (String (ascii_of_N (i2 mod 16 * 16 + i3 / 4)) EmptyString))
        | _ => None
        end
      else
        i3 ← b64_index c3;
        i4 ← b64_index c4;
        tail ← atob rest;
        Some (String (ascii_of_N (i1 * 4 + i2 / 16))
                (String (ascii_of_N (i2 mod 16 * 16 + i3 / 4))
                   (String (ascii_of_N (i3 mod 4 * 64 + i4)) tail)))
  | _ => None
  end.

(** The text of the viewer page before and after the encoded PDF. *)
Definition pdf_js_head : string :=
  "
    <!DOCTYPE html>
    <html>
    <head>
        <title>PDF Viewer</title>
        <style>
            #pdf-container {
                width: 100%;
                height: 750px;
                overflow: auto;
                background: #fafafa;
                border: 1px solid #e0e0e0;
            }
            .pdf-page-canvas {
                display: block;
                margin: 5px auto;
                border: 1px solid #e0e0e0;
            }
        </style>
    </head>
    <body>
        <div id=" +:+ dquote +:+
  "pdf-container" +:+ dquote +:+
  "></div>
        <script type=" +:+ dquote +:+
  "module" +:+ dquote +:+
  ">
            import * as pdfjsLib from 'https://cdnjs.cloudflare.com/ajax/libs/pdf.js/5.0.375/pdf.min.mjs';
            pdfjsLib.GlobalWorkerOptions.workerSrc = 'https://cdnjs.cloudflare.com/ajax/libs/pdf.js/5.0.375/pdf.worker.min.mjs';

            const pdfData = atob('".

Definition pdf_js_tail : string :=
  "');
            const pdfBytes = new Uint8Array(pdfData.length);
            for (let i = 0; i < pdfData.length; i++) {
                pdfBytes[i] = pdfData.charCodeAt(i);
            }

            const loadingTask = pdfjsLib.getDocument({ data: pdfBytes });
            loadingTask.promise.then(function(pdf) {
                const container = document.getElementById('pdf-container');

                for (let pageNum = 1; pageNum <= pdf.numPages; pageNum++) {
                    pdf.getPage(pageNum).then(function(page) {
                        const scale = 1.5;
                        const viewport = page.getViewport({scale: scale});

                        const canvas = document.createElement('canvas');
                        canvas.className = 'pdf-page-canvas';
                        canvas.width = viewport.width;
                        canvas.height = viewport.height;
                        container.appendChild(canvas);

                        const context = canvas.getContext('2d');
                        const renderContext = {
                            canvasContext: context,
                            viewport: viewport
                        };
                        page.render(renderContext);
                    });
                }
            }).catch(function(error) {
                document.getElementById('pdf-container').innerHTML = 
                    '<div style=" +:+ dquote +:+
  "color: red; padding: 20px;" +:+ dquote +:+
  ">Error loading PDF. Please try downloading instead.</div>';
            });
        </script>
    </body>
    </html>
    ".

Definition pdf_js_html (base64_pdf : string) : string :=
  pdf_js_head +:+ base64_pdf +:+ pdf_js_tail.

Inductive element : Type :=
| Title (text : string)
| FileUploader (label : string)
| Widget (w : widget)
| Component (html : string) (height : Z)
| Info (text : string)
| Error (text : string)
| Code (text : string)
| Empty.

Inductive column : Type := Page | Left | Right.

(** [st.<element>] inside [with column:]. *)
Definition st (c : column) (e : element) : M (World * list (column * element)) unit :=
  fun s => (Ok tt, (fst s, (snd s ++ [(c, e)])%list)).

Definition display_pdf (c : column) (file : UploadedFile)
    : M (World * list (column * element)) unit :=
  pdf_bytes ← of_result (getvalue file);
  st c (Widget (DownloadButton "📥 Download PDF" pdf_bytes "contract.pdf" "application/pdf"));;
  st c (Component (pdf_js_html (b64encode pdf_bytes)) 800).

(** [display_contract_data] as the script calls it, on whatever
    [extract_data_from_uploaded_file] returned: the subheader is on the
    page before the first attribute of the record is read. *)
Definition show_contract_data (env : Env) (c : column)
    (contract_data : option SoftwareContract) : M (World * list (column * element)) unit :=
  st c (Widget (Subheader "Extracted Contract Information"));;
  match contract_data with
  | None =>
      raise (Exn "AttributeError"
               "'NoneType' object has no attribute 'software_system_name'" None)
  | Some r =>
      for_each (drop 1 (display_contract_data env r)) (fun x => st c (Widget x))
  end.

(** What the script takes from its surroundings: the client
    [genai.Client(api_key=_)] builds, and [traceback.format_exc()]. *)
Record Runtime : Type := {
  connect : string -> Request -> result Response;
  format_exc : exn -> string
}.

Fixpoint assoc {A} (k : string) (l : list (string * A)) : option A :=
  match l with
  | [] => None
  | (k', v) :: l' => if String.eqb k k' then Some v else assoc k l'
  end.

(** [st.secrets[section][key]]. *)
Definition secret (secrets : list (string * list (string * string)))
    (section key : string) : result string :=
  match assoc section secrets with
  | None => Raise (Exn "KeyError" ("'" +:+ section +:+ "'") None)
  | Some table =>
      match assoc key table with
      | None => Raise (Exn "KeyError" ("'" +:+ key +:+ "'") None)
      | Some v => Ok v
      end
  end.

(** One run of the script. *)
Definition app (env : Env) (rt : Runtime)
    (secrets : list (string * list (string * string)))
    (uploaded_file : option UploadedFile) : M (World * list (column * element)) unit :=
  st Page (Title "Software Contract Data Extractor");;
  st Page (FileUploader "Upload or drag and drop a PDF contract file");;
  match uploaded_file with
  | Some file =>
      api_key ← of_result (secret secrets "config" "gemini_api_key");
      let few_shot_examples_path :=
        match assoc "config" secrets with
        | Some table => assoc "few_shot_examples_path" table
        | None => None
        end in
      let extractor := ContractExtractor_init (connect rt api_key) few_shot_examples_path in
      try_except
        (contract_data ← lift (extract_data_from_uploaded_file env extractor file);
         st Left (Widget (Subheader "PDF Document"));;
         display_pdf Left file;;
         show_contract_data env Right contract_data)
        (fun e =>
           st Page (Error ("Error processing PDF: " +:+ exn_str e));;
           st Page (Error "Please check the logs for more details.");;
           st Page (Code (format_exc rt e)))
  | None =>
      st Page (Info "Please upload a PDF contract file to extract contract information.");;
      st Left Empty;;
      st Right Empty
  end.

(** ** Further notions for the statements *)

(** The JSON object of a record: every field under its own key, an
    absent optional field as [null]. *)
Definition jopt {A} (f : A -> json) (x : option A) : json :=
  match x with
  | Some a => f a
  | None => JNull
  end.

Definition to_object (c : SoftwareContract) : list (string * json) :=
  [ ("software_system_name", JStr (software_system_name c));
    ("vendor_name_dba", JStr (vendor_name_dba c));
    ("vendor_name_legal", JStr (vendor_name_legal c));
    ("contract_start", jopt JStr (contract_start c));
    ("contract_end", jopt JStr (contract_end c));
    ("contract_period", jopt JInt (contract_period c));
    ("auto_renewal", jopt JBool (auto_renewal c));
    ("cancellation_notice_initial", jopt JInt (cancellation_notice_initial c));
    ("cancellation_notice_ongoing", jopt JInt (cancellation_notice_ongoing c));
    ("payment_terms", jopt JStr (payment_terms c));
    ("payment_delay", jopt JInt (payment_delay c));
    ("payment_amount_setup", jopt JFloat (payment_amount_setup c));
    ("payment_amount_per_terms", jopt JFloat (payment_amount_per_terms c));
    ("sla_uptime_guarantee", jopt JStr (sla_uptime_guarantee c));
    ("integration_clauses", jopt JStr (integration_clauses c));
    ("data_ownership", JStr (data_ownership c));
    ("license_count", JInt (license_count c)) ].

Definition required_keys : list string :=
  [ "software_system_name"; "vendor_name_dba"; "vendor_name_legal" ].

(** The labels of the table, top to bottom. *)
Definition labels : list string :=
  [ "Software/System Name"; "Vendor Name (DOING BUSINESS AS)"; "Vendor Name (LEGAL ENTITY)";
    "Contract Start"; "Contract End"; "Contract Period"; "Auto-renewal";
    "Cancellation Notice (INITIAL TERM, DAYS)"; "Cancellation Notice (ONGOING, DAYS)";
    "Payment Terms"; "Payment Delay"; "Payment amount, setup fee";
    "Payment amount per terms"; "SLA/Uptime Guarantee"; "Integration Clauses";
    "Data Ownership"; "License Count" ].

(** The three items one example of the manifest adds. *)
Definition triple (env : Env) (pdf : bytes) (expected : json) : list content :=
  [ CText "Please extract the contract information from the following PDF";
    CPart {| data := pdf; mime_type := "application/pdf" |};
    CText (json_dumps env expected) ].

Definition is_error (entry : level * string) : bool :=
  match fst entry with
  | ERROR => true
  | _ => false
  end.

(** An example the loop takes: it gets past the vehicle guard and names
    a file that is there. *)
Definition usable_example (w : World) (example : json) (pdf : bytes) : Prop :=
  passes_vehicle_guard example /\
  exists p, pdf_path_of example = Some p /\ fs w !! p = Some (File pdf).

(** The expected output the loop dumps for an example. *)
Definition expected_output_of (example : json) : json :=
  match example with
  | JObj d => default (JObj []) (dict_get "expected_output" d)
  | _ => JObj []
  end.

(** An example on which the turn of the loop raises: it is no object, or
    it gets past the vehicle guard and has no string under [pdf_path]. *)
Definition malformed_example (example : json) : Prop :=
  (forall d, example <> JObj d) \/
  (passes_vehicle_guard example /\ pdf_path_of example = None).

(** Python's [int(s)] on the text [str] gives. *)
Definition int_of_str (s : string) : option Z :=
  option_map Z.of_int (NilZero.int_of_string s).

Definition rt0 : Runtime :=
  {| connect := fun _ => answering reply_minimal;
     format_exc := fun e => "Traceback (most recent call last): " +:+ exn_class e |}.

Definition secrets0 : list (string * list (string * string)) :=
  [ ("config", [ ("gemini_api_key", "k-123") ]) ].

(** *** More sample data *)

(** A reply with explicit nulls under two optional fields. *)
Definition reply_with_nulls : list (string * json) :=
  (required_members ++ [ ("contract_end", JNull); ("payment_delay", JNull) ])%list.

(** An environment that parses a manifest of two usable examples. *)
Definition env1 : Env := test_env [ JArr [contract_example; foreign_example] ].

(** The check that the character of a value reads back as that value
    and is not the padding. *)
Definition b64_char_ok (i : N) : bool :=
  match b64_index (b64_char i) with
  | Some j => N.eqb j i && negb (Ascii.eqb (b64_char i) "=")
  | None => false
  end.

(** The extractor the script builds from its secrets. *)
Definition extractor_of (rt : Runtime) (secrets : list (string * list (string * string)))
    (api_key : string) : ContractExtractor :=
  ContractExtractor_init (connect rt api_key)
    match assoc "config" secrets with
    | Some table => assoc "few_shot_examples_path" table
    | None => None
    end.

(** The parts of the page: what every run shows first, the report of an
    exception, the pane of the PDF. *)
Definition page_top : list (column * element) :=
  [ (Page, Title "Software Contract Data Extractor");
    (Page, FileUploader "Upload or drag and drop a PDF contract file") ].

Definition error_report (rt : Runtime) (e : exn) : list (column * element) :=
  [ (Page, Error ("Error processing PDF: " +:+ exn_str e));
    (Page, Error "Please check the logs for more details.");
    (Page, Code (format_exc rt e)) ].

Definition pdf_pane (file : UploadedFile) : list (column * element) :=
  [ (Left, Widget (Subheader "PDF Document"));
    (Left, Widget (DownloadButton "📥 Download PDF" (buffer file) "contract.pdf"
                     "application/pdf"));
    (Left, Component (pdf_js_html (b64encode (buffer file))) 800) ].

Definition is_table (x : column * element) : bool :=
  match snd x with
  | Widget (Html _) => true
  | _ => false
  end.

(** *** The script with the construction of the client

    [ContractExtractor(api_key=_, few_shot_examples_path=_)] builds the
    client with [genai.Client(api_key=_)], which can refuse the key; the
    script does so before its [try]. *)

Record Sdk : Type := {
  new_client : string -> result (Request -> result Response);
  traceback_format_exc : exn -> string
}.

(** The surroundings of a run whose client [c] is built. *)
Definition runtime_of (sdk : Sdk) (c : Request -> result Response) : Runtime :=
  {| connect := fun _ => c; format_exc := traceback_format_exc sdk |}.

(** One run of the script, the client built where the source builds it. *)
Definition script (env : Env) (sdk : Sdk)
    (secrets : list (string * list (string * string)))
    (uploaded_file : option UploadedFile) : M (World * list (column * element)) unit :=
  st Page (Title "Software Contract Data Extractor");;
  st Page (FileUploader "Upload or drag and drop a PDF contract file");;
  match uploaded_file with
  | Some file =>
      api_key ← of_result (secret secrets "config" "gemini_api_key");
      let few_shot_examples_path :=
        match assoc "config" secrets with
        | Some table => assoc "few_shot_examples_path" table
        | None => None
        end in
      client_of_key ← of_result (new_client sdk api_key);
      let extractor := ContractExtractor_init client_of_key few_shot_examples_path in
      try_except
        (contract_data ← lift (extract_data_from_uploaded_file env extractor file);
         st Left (Widget (Subheader "PDF Document"));;
         display_pdf Left file;;
         show_contract_data env Right contract_data)
        (fun e =>
           st Page (Error ("Error processing PDF: " +:+ exn_str e));;
           st Page (Error "Please check the logs for more details.");;
           st Page (Code (traceback_format_exc sdk e)))
  | None =>
      st Page (Info "Please upload a PDF contract file to extract contract information.");;
      st Left Empty;;
      st Right Empty
  end.

(** A library that refuses an empty key and whose model cannot be
    reached, and one whose model answers with no contract at all. *)
Definition sdk_silent : Sdk :=
  {| new_client := fun k =>
       if String.eqb k "" then Raise (Exn "ValueError" "Missing key inputs argument!" None)
       else Ok silent_client;
     traceback_format_exc := fun e => "Traceback (most recent call last): " +:+ exn_class e |}.

Definition sdk_garbled : Sdk :=
  {| new_client := fun k =>
       if String.eqb k "" then Raise (Exn "ValueError" "Missing key inputs argument!" None)
       else Ok (answering (JStr "I cannot read this document"));
     traceback_format_exc := fun e => "Traceback (most recent call last): " +:+ exn_class e |}.

Definition secrets_empty_key : list (string * list (string * string)) :=
  [ ("config", [ ("gemini_api_key", "") ]) ].

(** *** A reply that does not validate *)

(** A reply that lacks two of the required fields. *)
Definition reply_incomplete : json :=
  JObj [ ("software_system_name", JStr "DealerTrack") ].

Definition env2 : Env := test_env [ reply_incomplete ].

(** A client whose model answers a request of three contents and refuses
    a longer one. *)
Definition terse_client : Request -> result Response :=
  fun request =>
    if (length (contents request) =? 3)%nat then Ok {| text := json_text reply_minimal |}
    else Raise (Exn "ServerError" "Request too large" None).

(** An upload whose bytes are the text of a manifest. *)
Definition manifest_upload : UploadedFile :=
  {| buffer := json_text (JArr [foreign_example]); closed := false |}.

(** * Properties *)

(** ** Rendering *)

Lemma digit_is_digit (n : Z) : 0 <= n <= 9 -> is_digit (digit n) = true.
Proof.
  intros Hn. unfold is_digit, digit.
  rewrite nat_ascii_embedding by lia.
  apply andb_true_intro. split; apply Nat.leb_le; lia.
Qed.

Lemma fixed2_two_decimals (negative : bool) (h : Z) : two_decimals (fixed2 negative h).
Proof.
  exists ((if negative then "-" else "") +:+ str_int (h / 100)),
    (digit (h mod 100 / 10)), (digit (h mod 10)).
  split.
  - unfold fixed2. destruct negative; simpl; reflexivity.
  - pose proof (Z.mod_pos_bound h 100 ltac:(lia)).
    pose proof (Z.mod_pos_bound h 10 ltac:(lia)).
    split; apply digit_is_digit.
    + split; [apply Z.div_pos; lia | apply Z.lt_succ_r, Z.div_lt_upper_bound; lia].
    + lia.
Qed.

Lemma format_2f_two_decimals (x : spec_float) :
  is_finite_float x = true -> two_decimals (format_2f x).
Proof.
  destruct x; simpl; intros H; try discriminate; apply fixed2_two_decimals.
Qed.

Ltac each_label H :=
  repeat (apply elem_of_cons in H as [-> | H]; [reflexivity |]);
  apply elem_of_nil in H; destruct H.

(** The table [display_contract_data] puts on the page, and both of its
    exports, are made of the rows of [data_dict]. *)
Lemma display_contract_data_rows (env : Env) (c : SoftwareContract) :
  display_contract_data env c !! 2%nat = Some (Html (to_html env (data_dict c))) /\
  display_contract_data env c !! 4%nat =
    Some (DownloadButton "📥 Download as CSV" (to_csv env (data_dict c))
            "contract_data.csv" "text/csv") /\
  length (data_dict c) = 17%nat.
Proof. repeat split. Qed.

(** C5.  The table [display_contract_data] shows is made of the rows of
    [data_dict].  A contract whose optional fields are all absent shows
    "NULL" in the row of every optional field; a license count of -1 is
    shown as "Unlimited"; a currency field that holds a number is shown
    as a dollar sign followed by the amount with two decimals. *)
Theorem display_absent_null_unlimited_currency (env : Env) (c : SoftwareContract) :
  all_optional_absent c ->
  display_contract_data env c !! 2%nat = Some (Html (to_html env (data_dict c))) /\
  (forall label, label ∈ optional_labels ->
     row label (data_dict c) = Some (VStr "NULL")) /\
  (license_count c = -1 -> row "License Count" (data_dict c) = Some (VStr "Unlimited")) /\
  (forall c' x, is_finite_float x = true ->
     (payment_amount_setup c' = Some x ->
        exists t, row "Payment amount, setup fee" (data_dict c') = Some (VStr ("$" +:+ t))
                  /\ t = format_2f x /\ two_decimals t) /\
     (payment_amount_per_terms c' = Some x ->
        exists t, row "Payment amount per terms" (data_dict c') = Some (VStr ("$" +:+ t))
                  /\ t = format_2f x /\ two_decimals t)).
Proof.
  intros (H1 & H2 & H3 & H4 & H5 & H6 & H7 & H8 & H9 & H10 & H11 & H12).
  split; [reflexivity |]. split; [| split].
  - intros label Hin. destruct c; simpl in *; subst. each_label Hin.
  - intros Hl. destruct c; simpl in *; subst. reflexivity.
  - intros c' x Hfin. split; intros Hx; exists (format_2f x);
      (split; [| split; [reflexivity | by apply format_2f_two_decimals]]);
      destruct c'; simpl in *; subst; reflexivity.
Qed.

Lemma display_absent_null_unlimited_currency_witness :
  row "Payment Terms" (data_dict sample_contract) = Some (VStr "NULL") /\
  row "License Count" (data_dict sample_contract) = Some (VStr "Unlimited").
Proof.
  assert (Habs : all_optional_absent sample_contract).
  { unfold all_optional_absent. simpl. repeat split; reflexivity. }
  destruct (display_absent_null_unlimited_currency env0 sample_contract Habs)
    as (_ & Hn & Hu & _).
  split.
  - apply Hn. unfold optional_labels.
    repeat first [apply list_elem_of_here | apply list_elem_of_further].
  - apply Hu. reflexivity.
Defined.

(** C10, as stated, fails: a contract period of 0 is shown as "0 months",
    not as "0". *)
Lemma zero_period_shown_with_unit :
  contract_period zero_contract = Some 0 /\
  row "Contract Period" (data_dict zero_contract) = Some (VStr "0 months") /\
  row "Contract Period" (data_dict zero_contract) <> Some (VStr "0").
Proof. repeat split. discriminate. Qed.

(** C10, amended.  The table shown is made of the rows of [data_dict].
    A payment delay of 0 and an empty string in a field
    tested by truthiness are shown as "NULL", exactly as an absent value
    is.  The fields tested with [is not None] show a present zero: "0"
    for the two cancellation notices, "0 months" for the contract period,
    "$0.00" for the two payment amounts. *)
Theorem display_falsy_values (env : Env) (c : SoftwareContract) :
  display_contract_data env c !! 2%nat = Some (Html (to_html env (data_dict c))) /\
  (payment_delay c = Some 0 \/ payment_delay c = None ->
     row "Payment Delay" (data_dict c) = Some (VStr "NULL")) /\
  (software_system_name c = "" ->
     row "Software/System Name" (data_dict c) = Some (VStr "NULL")) /\
  (vendor_name_dba c = "" ->
     row "Vendor Name (DOING BUSINESS AS)" (data_dict c) = Some (VStr "NULL")) /\
  (vendor_name_legal c = "" ->
     row "Vendor Name (LEGAL ENTITY)" (data_dict c) = Some (VStr "NULL")) /\
  (payment_terms c = Some "" \/ payment_terms c = None ->
     row "Payment Terms" (data_dict c) = Some (VStr "NULL")) /\
  (sla_uptime_guarantee c = Some "" \/ sla_uptime_guarantee c = None ->
     row "SLA/Uptime Guarantee" (data_dict c) = Some (VStr "NULL")) /\
  (integration_clauses c = Some "" \/ integration_clauses c = None ->
     row "Integration Clauses" (data_dict c) = Some (VStr "NULL")) /\
  (contract_start c = Some "" \/ contract_start c = None ->
     row "Contract Start" (data_dict c) = Some (VStr "NULL")) /\
  (contract_end c = Some "" \/ contract_end c = None ->
     row "Contract End" (data_dict c) = Some (VStr "NULL")) /\
  (cancellation_notice_initial c = Some 0 ->
     row "Cancellation Notice (INITIAL TERM, DAYS)" (data_dict c) = Some (VStr "0")) /\
  (cancellation_notice_ongoing c = Some 0 ->
     row "Cancellation Notice (ONGOING, DAYS)" (data_dict c) = Some (VStr "0")) /\
  (contract_period c = Some 0 ->
     row "Contract Period" (data_dict c) = Some (VStr "0 months")) /\
  (payment_amount_setup c = Some (S754_zero false) ->
     row "Payment amount, setup fee" (data_dict c) = Some (VStr "$0.00")) /\
  (payment_amount_per_terms c = Some (S754_zero false) ->
     row "Payment amount per terms" (data_dict c) = Some (VStr "$0.00")).
Proof.
  split; [reflexivity |]. destruct c; simpl.
  repeat split; intros H; destruct_or?; simplify_eq; reflexivity.
Qed.

Lemma display_falsy_values_witness :
  row "Payment Delay" (data_dict zero_contract) = Some (VStr "NULL") /\
  row "Contract End" (data_dict zero_contract) = Some (VStr "NULL") /\
  row "Cancellation Notice (ONGOING, DAYS)" (data_dict zero_contract) = Some (VStr "0") /\
  row "Payment amount, setup fee" (data_dict zero_contract) = Some (VStr "$0.00").
Proof.
  destruct (display_falsy_values env0 zero_contract)
    as (_ & Hd & _ & _ & _ & _ & _ & _ & _ & He & _ & Ho & _ & Hs & _).
  split; [| split; [| split]].
  - apply Hd. left. reflexivity.
  - apply He. left. reflexivity.
  - apply Ho. reflexivity.
  - apply Hs. reflexivity.
Defined.

(** ** Validation *)

Ltac unfold_binds H :=
  repeat match type of H with
         | context [mbind _ ?x] =>
             let E := fresh "E" in destruct x eqn:E; simpl in H; [| discriminate H]
         end.

Lemma model_validate_defaults (env : Env) (d : list (string * json)) (r : SoftwareContract) :
  model_validate env d = Some r ->
  defaulted validate_str "data_ownership" "DEALER" d = Some (data_ownership r) /\
  defaulted (validate_int env) "license_count" (-1) d = Some (license_count r).
Proof.
  intros H. unfold model_validate in H. unfold_binds H.
  injection H as <-. split; reflexivity.
Qed.

Lemma validate_str_inv (v : json) (s : string) : validate_str v = Some s -> v = JStr s.
Proof. destruct v; simpl; intros H; congruence. Qed.

Lemma model_validate_data_ownership (env : Env) (d : list (string * json)) (r : SoftwareContract) :
  model_validate env d = Some r ->
  (dict_get "data_ownership" d = None -> data_ownership r = "DEALER") /\
  (forall v, dict_get "data_ownership" d = Some v -> v = JStr (data_ownership r)).
Proof.
  intros H. apply model_validate_defaults in H as [H _].
  unfold defaulted in H. split.
  - intros Hn. rewrite Hn in H. congruence.
  - intros v Hv. rewrite Hv in H. by apply validate_str_inv.
Qed.

Lemma model_validate_license_count (env : Env) (d : list (string * json)) (r : SoftwareContract) :
  model_validate env d = Some r ->
  (dict_get "license_count" d = None -> license_count r = -1) /\
  (forall v, dict_get "license_count" d = Some v -> validate_int env v = Some (license_count r)).
Proof.
  intros H. apply model_validate_defaults in H as [_ H].
  unfold defaulted in H. split.
  - intros Hn. rewrite Hn in H. congruence.
  - intros v Hv. rewrite Hv in H. assumption.
Qed.

(** ** Loading the few-shot examples *)

Lemma log_ext_nil w : log_ext w [] = w.
Proof. destruct w; unfold log_ext; simpl. by rewrite app_nil_r. Qed.

Ltac run_M :=
  unfold mbind, M_bind, mret, M_ret, of_result, lift, raise, get_local, put_local,
    logger_info, logger_warning, logger_error, path_exists, read_file; simpl.

Ltac frame_done :=
  intros; run_M; rewrite ?log_ext_nil, ?app_nil_r; reflexivity.

Lemma example_step_frame (env : Env) (e : json) (w : World) :
  exists r es items, forall w2 acc2,
    (forall p, pdf_path_of e = Some p -> fs w2 !! p = fs w !! p) ->
    example_step env e (w2, acc2) = (r, (log_ext w2 es, (acc2 ++ items)%list)).
Proof.
  unfold example_step.
  destruct e as [| | | | | |d]; try (eexists _, [], []; frame_done).
  simpl py_get.
  destruct (py_in "vehicle_vin" (default (JObj []) (dict_get "expected_output" d)))
    as [[|]|ex] eqn:Hin.
  - eexists _, [_], []. intros. run_M. rewrite Hin. rewrite app_nil_r. reflexivity.
  - simpl py_getitem. unfold pdf_path_of.
    destruct (dict_get "pdf_path" d) as [v|] eqn:Hp.
    + destruct v as [| | | |p| |];
        try (eexists _, [], []; intros; run_M; rewrite Hin; rewrite ?log_ext_nil, ?app_nil_r; reflexivity).
      destruct (fs w !! p) as [[c|]|] eqn:Hf.
      * eexists _, [], [_; _; _]. intros w2 acc2 Hag. run_M. rewrite Hin. simpl. simpl.
        pose proof (Hag p eq_refl) as Hw2; rewrite Hf in Hw2; repeat (rewrite Hw2; simpl). rewrite log_ext_nil. reflexivity.
      * eexists _, [], []. intros w2 acc2 Hag. run_M. rewrite Hin. simpl.
        pose proof (Hag p eq_refl) as Hw2; rewrite Hf in Hw2; repeat (rewrite Hw2; simpl). rewrite log_ext_nil, app_nil_r. reflexivity.
      * eexists _, [_], []. intros w2 acc2 Hag. run_M. rewrite Hin. simpl.
        pose proof (Hag p eq_refl) as Hw2; rewrite Hf in Hw2; repeat (rewrite Hw2; simpl). rewrite app_nil_r. reflexivity.
    + eexists _, [], []. intros. run_M. rewrite Hin. rewrite log_ext_nil, app_nil_r. reflexivity.
  - eexists _, [], []. intros. run_M. rewrite Hin. rewrite log_ext_nil, app_nil_r. reflexivity.
Qed.

Lemma for_each_app {S A} (a b : list A) (body : A -> M S unit) (s : S) :
  for_each (a ++ b)%list body s =
  match for_each a body s with
  | (Ok _, s') => for_each b body s'
  | (Raise e, s') => (Raise e, s')
  end.
Proof.
  revert s. induction a as [|x a IH]; intros s; simpl.
  - reflexivity.
  - unfold mbind, M_bind. destruct (body x s) as [[[]|e] s1]; [apply IH | reflexivity].
Qed.

Lemma log_ext_ext w a b : log_ext (log_ext w a) b = log_ext w (a ++ b)%list.
Proof. unfold log_ext. simpl. by rewrite app_assoc. Qed.

Lemma for_each_frame (env : Env) (es : list json) (w : World) :
  exists r entries items, forall w2 acc2,
    (forall p, p ∈ omap pdf_path_of es -> fs w2 !! p = fs w !! p) ->
    for_each es (example_step env) (w2, acc2) = (r, (log_ext w2 entries, (acc2 ++ items)%list)).
Proof.
  induction es as [|e es IH].
  - exists (Ok tt), [], []. intros. simpl. unfold mret, M_ret. by rewrite log_ext_nil, app_nil_r.
  - destruct (example_step_frame env e w) as (r1 & es1 & it1 & H1).
    destruct IH as (r2 & es2 & it2 & H2).
    assert (Hsub1 : forall w2 : World, (forall p, p ∈ omap pdf_path_of (e :: es) -> fs w2 !! p = fs w !! p) ->
              forall p, pdf_path_of e = Some p -> fs w2 !! p = fs w !! p).
    { intros w2 Hag p Hp. apply Hag. simpl. rewrite Hp. apply list_elem_of_here. }
    assert (Hsub2 : forall w2 : World, (forall p, p ∈ omap pdf_path_of (e :: es) -> fs w2 !! p = fs w !! p) ->
              forall p, p ∈ omap pdf_path_of es -> fs w2 !! p = fs w !! p).
    { intros w2 Hag p Hp. apply Hag. simpl. destruct (pdf_path_of e); [by apply list_elem_of_further | done]. }
    destruct r1 as [[]|ex].
    + exists r2, (es1 ++ es2)%list, (it1 ++ it2)%list. intros w2 acc2 Hag.
      simpl. unfold mbind, M_bind. rewrite (H1 w2 acc2 (Hsub1 w2 Hag)).
      rewrite (H2 (log_ext w2 es1) (acc2 ++ it1)%list (Hsub2 w2 Hag)).
      by rewrite log_ext_ext, app_assoc.
    + exists (Raise ex), es1, it1. intros w2 acc2 Hag.
      simpl. unfold mbind, M_bind. by rewrite (H1 w2 acc2 (Hsub1 w2 Hag)).
Qed.

Lemma load_examples_frame (env : Env) (self : ContractExtractor) (path : string) (w : World) :
  few_shot_examples_path self = Some path ->
  truthy_str path = true ->
  exists r entries items, forall w2 acc2,
    (forall p, p ∈ few_shot_paths env self w -> fs w2 !! p = fs w !! p) ->
    load_examples env path (w2, acc2) = (r, (log_ext w2 entries, (acc2 ++ items)%list)).
Proof.
  intros Hpath Ht. unfold few_shot_paths, manifest_items. rewrite Hpath, Ht.
  unfold load_examples.
  destruct (fs w !! path) as [[c|]|] eqn:Hf.
  - destruct (json_load env c) as [v|ex] eqn:Hj.
    + destruct (py_iter v) as [items|ex] eqn:Hi.
      * destruct (for_each_frame env items w) as (r & entries & its & H).
        exists r, entries, its. intros w2 acc2 Hag.
        pose proof (Hag path (list_elem_of_here _ _)) as Hw2. rewrite Hf in Hw2.
        run_M. rewrite Hw2. simpl. rewrite Hj. simpl. rewrite Hi. simpl.
        apply H. intros p Hp. apply Hag. by apply list_elem_of_further.
      * eexists _, [], []. intros w2 acc2 Hag.
        pose proof (Hag path (list_elem_of_here _ _)) as Hw2. rewrite Hf in Hw2.
        run_M. rewrite Hw2. simpl. rewrite Hj. simpl. rewrite Hi. simpl.
        by rewrite log_ext_nil, app_nil_r.
    + eexists _, [], []. intros w2 acc2 Hag.
      pose proof (Hag path (list_elem_of_here _ _)) as Hw2. rewrite Hf in Hw2.
      run_M. rewrite Hw2. simpl. rewrite Hj. simpl.
      by rewrite log_ext_nil, app_nil_r.
  - eexists _, [], []. intros w2 acc2 Hag.
    pose proof (Hag path (list_elem_of_here _ _)) as Hw2. rewrite Hf in Hw2.
    run_M. rewrite Hw2. simpl. by rewrite log_ext_nil, app_nil_r.
  - eexists _, [], []. intros w2 acc2 Hag.
    pose proof (Hag path (list_elem_of_here _ _)) as Hw2. rewrite Hf in Hw2.
    run_M. rewrite Hw2. simpl. by rewrite log_ext_nil, app_nil_r.
Qed.

Lemma create_on_existing (env : Env) (self : ContractExtractor) (path : string) (w : World) :
  few_shot_examples_path self = Some path ->
  truthy_str path = true ->
  is_Some (fs w !! path) ->
  create_few_shot_examples env self w =
  match load_examples env path (w, []) with
  | (Ok _, s) => (Ok (snd s), fst s)
  | (Raise e, s) =>
      (Ok (snd s), add_log WARNING ("Could not load few-shot examples: " +:+ exn_str e) (fst s))
  end.
Proof.
  intros Hpath Ht Hex. unfold create_few_shot_examples. rewrite Hpath, Ht. simpl.
  unfold mbind, M_bind, path_exists. rewrite bool_decide_true by done. simpl.
  unfold run_local, try_except, mbind, M_bind.
  destruct (load_examples env path (w, [])) as [[[]|ex] [w1 acc1]]; simpl; reflexivity.
Qed.

Lemma create_frame (env : Env) (self : ContractExtractor) (w : World) :
  exists few entries, forall w2,
    (forall p, p ∈ few_shot_paths env self w -> fs w2 !! p = fs w !! p) ->
    create_few_shot_examples env self w2 = (Ok few, log_ext w2 entries).
Proof.
  destruct (few_shot_examples_path self) as [path|] eqn:Hpath.
  2: { exists [], []. intros w2 _. unfold create_few_shot_examples. rewrite Hpath.
       by rewrite log_ext_nil. }
  destruct (truthy_str path) eqn:Ht.
  2: { exists [], []. intros w2 _. unfold create_few_shot_examples. rewrite Hpath, Ht.
       by rewrite log_ext_nil. }
  assert (Hin : path ∈ few_shot_paths env self w).
  { unfold few_shot_paths. rewrite Hpath. apply list_elem_of_here. }
  destruct (fs w !! path) as [n|] eqn:Hf.
  - destruct (load_examples_frame env self path w Hpath Ht) as (r & entries & items & H).
    destruct r as [[]|ex].
    + exists items, entries. intros w2 Hag.
      rewrite (create_on_existing env self path w2 Hpath Ht).
      * by rewrite (H w2 [] Hag).
      * rewrite (Hag path Hin), Hf. by eexists.
    + exists items, (entries ++ [(WARNING, "Could not load few-shot examples: " +:+ exn_str ex)])%list.
      intros w2 Hag.
      rewrite (create_on_existing env self path w2 Hpath Ht).
      * rewrite (H w2 [] Hag). simpl. f_equal. unfold add_log, log_ext. simpl.
        by rewrite app_assoc.
      * rewrite (Hag path Hin), Hf. by eexists.
  - exists [], []. intros w2 Hag. unfold create_few_shot_examples. rewrite Hpath, Ht. simpl.
    unfold mbind, M_bind, path_exists. rewrite (Hag path Hin), Hf.
    rewrite bool_decide_false by (intros [? ?]; discriminate). simpl.
    by rewrite log_ext_nil.
Qed.

Lemma create_on_items (env : Env) (self : ContractExtractor) (w : World) :
  manifest_items env self w <> [] ->
  create_few_shot_examples env self w =
  match for_each (manifest_items env self w) (example_step env) (w, []) with
  | (Ok _, s) => (Ok (snd s), fst s)
  | (Raise e, s) =>
      (Ok (snd s), add_log WARNING ("Could not load few-shot examples: " +:+ exn_str e) (fst s))
  end.
Proof.
  unfold manifest_items. intros Hne.
  destruct (few_shot_examples_path self) as [path|] eqn:Hpath; [| done].
  destruct (truthy_str path) eqn:Ht; [| done].
  destruct (fs w !! path) as [[c|]|] eqn:Hf; [| done | done].
  destruct (json_load env c) as [v|ex] eqn:Hj; [| done].
  destruct (py_iter v) as [items|ex] eqn:Hi; [| done].
  rewrite (create_on_existing env self path w Hpath Ht) by (rewrite Hf; by eexists).
  unfold load_examples. run_M. rewrite Hf. simpl. rewrite Hj. simpl. rewrite Hi. simpl.
  reflexivity.
Qed.

Lemma create_value (env : Env) (self : ContractExtractor) (w : World) :
  fst (create_few_shot_examples env self w) = Ok (collected env (manifest_items env self w) w).
Proof.
  destruct (manifest_items env self w) as [|x items] eqn:Hitems.
  - unfold manifest_items in Hitems. unfold collected. simpl.
    destruct (few_shot_examples_path self) as [path|] eqn:Hpath.
    2: { unfold create_few_shot_examples. by rewrite Hpath. }
    destruct (truthy_str path) eqn:Ht.
    2: { unfold create_few_shot_examples. by rewrite Hpath, Ht. }
    destruct (fs w !! path) as [n|] eqn:Hf.
    + rewrite (create_on_existing env self path w Hpath Ht) by (rewrite Hf; by eexists).
      unfold load_examples. run_M. rewrite Hf.
      destruct n as [c|]; simpl; [| reflexivity].
      destruct (json_load env c) as [v|ex]; simpl; [| reflexivity].
      destruct (py_iter v) as [its|ex]; simpl; [| reflexivity].
      subst its. reflexivity.
    + unfold create_few_shot_examples. rewrite Hpath, Ht. simpl.
      unfold mbind, M_bind, path_exists. rewrite Hf.
      rewrite bool_decide_false by (intros [? ?]; discriminate). reflexivity.
  - rewrite create_on_items by (rewrite Hitems; done). rewrite Hitems. unfold collected.
    destruct (for_each (x :: items) (example_step env) (w, [])) as [[[]|ex] s]; reflexivity.
Qed.

Lemma step_vehicle (env : Env) (e : json) (w : World) (acc : list content) :
  has_vehicle_vin e ->
  example_step env e (w, acc) =
  (Ok tt, (log_ext w [(INFO, "Skipping vehicle title example - not applicable for software contracts")], acc)).
Proof.
  intros (d & expected & -> & Hexp & Hv).
  unfold example_step. run_M. rewrite Hexp. simpl.
  rewrite bool_decide_true by done. reflexivity.
Qed.


(** An example whose turn only writes to the log can be dropped from the
    manifest without changing what the loop collects. *)
Lemma for_each_skip (env : Env) (pre post : list json) (e : json) (w : World)
    (acc : list content) (es : list (level * string)) :
  (forall w1 acc1, fs w1 = fs w ->
     example_step env e (w1, acc1) = (Ok tt, (log_ext w1 es, acc1))) ->
  fst (for_each (pre ++ e :: post) (example_step env) (w, acc)) =
    fst (for_each (pre ++ post) (example_step env) (w, acc)) /\
  snd (snd (for_each (pre ++ e :: post) (example_step env) (w, acc))) =
    snd (snd (for_each (pre ++ post) (example_step env) (w, acc))).
Proof.
  intros Hstep. rewrite !for_each_app.
  destruct (for_each_frame env pre w) as (r1 & es1 & it1 & H1).
  rewrite (H1 w acc) by done.
  destruct r1 as [[]|ex]; [| done].
  destruct (for_each_frame env post w) as (r2 & es2 & it2 & H2).
  simpl. unfold mbind, M_bind. rewrite Hstep by done.
  rewrite !H2 by done. done.
Qed.

(** C4.  [create_few_shot_examples] never raises: it always returns a
    list and changes nothing but the log.  Without a configured path
    (none, or the empty string) or without a file at that path it returns
    the empty list; when reading the manifest fails, when its text is no
    JSON, or when the parsed value cannot be iterated, the failure is
    logged as a warning and the empty list is returned. *)
Theorem create_few_shot_examples_never_raises (env : Env) (self : ContractExtractor)
    (w : World) :
  (exists few entries, create_few_shot_examples env self w = (Ok few, log_ext w entries)) /\
  (few_shot_examples_path self = None \/ few_shot_examples_path self = Some "" ->
     create_few_shot_examples env self w = (Ok [], w)) /\
  (forall path, few_shot_examples_path self = Some path -> fs w !! path = None ->
     create_few_shot_examples env self w = (Ok [], w)) /\
  (forall path e w', few_shot_examples_path self = Some path -> path <> "" ->
     is_Some (fs w !! path) -> read_file path w = (Raise e, w') ->
     create_few_shot_examples env self w =
       (Ok [], add_log WARNING ("Could not load few-shot examples: " +:+ exn_str e) w)) /\
  (forall path manifest e, few_shot_examples_path self = Some path -> path <> "" ->
     fs w !! path = Some (File manifest) -> json_load env manifest = Raise e ->
     create_few_shot_examples env self w =
       (Ok [], add_log WARNING ("Could not load few-shot examples: " +:+ exn_str e) w)) /\
  (forall path manifest examples e, few_shot_examples_path self = Some path -> path <> "" ->
     fs w !! path = Some (File manifest) -> json_load env manifest = Ok examples ->
     py_iter examples = Raise e ->
     create_few_shot_examples env self w =
       (Ok [], add_log WARNING ("Could not load few-shot examples: " +:+ exn_str e) w)).
Proof.
  assert (Htruthy : forall path, path <> "" -> truthy_str path = true).
  { intros path Hne. unfold truthy_str. apply negb_true_iff, String.eqb_neq. done. }
  split; [| split; [| split; [| split; [| split]]]].
  - destruct (create_frame env self w) as (few & entries & H).
    exists few, entries. by apply H.
  - intros [Hp | Hp]; unfold create_few_shot_examples; by rewrite Hp.
  - intros path Hp Hf. unfold create_few_shot_examples. rewrite Hp.
    destruct (truthy_str path); simpl; [| done].
    unfold mbind, M_bind, path_exists. rewrite Hf.
    rewrite bool_decide_false by (intros [? ?]; discriminate). done.
  - intros path e w' Hp Hne Hex Hread.
    rewrite (create_on_existing env self path w Hp (Htruthy path Hne) Hex).
    unfold load_examples. unfold mbind at 1. unfold M_bind, lift. simpl.
    rewrite Hread. simpl.
    unfold read_file in Hread. destruct (fs w !! path) as [[c|]|]; by simplify_eq.
  - intros path manifest e Hp Hne Hf Hj.
    rewrite (create_on_existing env self path w Hp (Htruthy path Hne)) by (rewrite Hf; by eexists).
    unfold load_examples. run_M. rewrite Hf. simpl. rewrite Hj. reflexivity.
  - intros path manifest examples e Hp Hne Hf Hj Hi.
    rewrite (create_on_existing env self path w Hp (Htruthy path Hne)) by (rewrite Hf; by eexists).
    unfold load_examples. run_M. rewrite Hf. simpl. rewrite Hj. simpl. rewrite Hi. reflexivity.
Qed.

Lemma create_few_shot_examples_never_raises_witness :
  create_few_shot_examples env0 extractor0 (world_with "[1, 2") =
  (Ok [], add_log WARNING
            "Could not load few-shot examples: Expecting value: line 1 column 1 (char 0)"
            (world_with "[1, 2")).
Proof.
  destruct (create_few_shot_examples_never_raises env0 extractor0 (world_with "[1, 2"))
    as (_ & _ & _ & _ & H & _).
  apply (H "examples.json" "[1, 2"
           (Exn "JSONDecodeError" "Expecting value: line 1 column 1 (char 0)" None)).
  - reflexivity.
  - discriminate.
  - vm_compute. reflexivity.
  - vm_compute. reflexivity.
Defined.

(** Past the parsing of the manifest the empty list is not the rule: a
    failure in the loop keeps the examples collected before it. *)
Example examples_before_a_failure_are_kept :
  create_few_shot_examples env0 extractor0
    (world_with (json_text (JArr [contract_example; broken_example; contract_example]))) =
  (Ok [ CText "Please extract the contract information from the following PDF";
        CPart {| data := "%PDF-1.4 contract"; mime_type := "application/pdf" |};
        CText (json_dumps env0 (JObj [ ("software_system_name", JStr "DealerTrack");
                                       ("vendor_name_dba", JStr "Acme");
                                       ("vendor_name_legal", JStr "Acme Software LLC") ])) ],
   add_log WARNING "Could not load few-shot examples: 'pdf_path'"
     (world_with (json_text (JArr [contract_example; broken_example; contract_example])))).
Proof. vm_compute. reflexivity. Qed.

(** C3, as stated, fails: an example whose expected output has a key
    foreign to the schema other than [vehicle_vin] is kept. *)
Lemma foreign_key_example_kept :
("patient_id" ∉ schema_fields) /\
  manifest_items env0 extractor0 (world_with (json_text (JArr [foreign_example]))) =
    [foreign_example] /\
  fst (create_few_shot_examples env0 extractor0
         (world_with (json_text (JArr [foreign_example])))) =
    Ok [ CText "Please extract the contract information from the following PDF";
         CPart {| data := "%PDF-1.4 lease"; mime_type := "application/pdf" |};
         CText (json_dumps env0 (JObj [ ("patient_id", JStr "P-17") ])) ].
Proof.
  split; [| split].
  - apply (bool_decide_unpack _). vm_compute. exact I.
  - vm_compute. reflexivity.
  - vm_compute. reflexivity.
Qed.

(** C3, amended.  An example of the manifest whose expected output has
    the key [vehicle_vin] is left out of the returned list, which is what
    the manifest without that example gives; nothing is raised. *)
Theorem vehicle_vin_example_excluded (env : Env) (self : ContractExtractor) (w : World)
    (pre post : list json) (e : json) :
  manifest_items env self w = (pre ++ e :: post)%list ->
  has_vehicle_vin e ->
  fst (create_few_shot_examples env self w) = Ok (collected env (pre ++ post)%list w).
Proof.
  intros Hitems Hv. rewrite create_value, Hitems. f_equal. unfold collected.
  eapply for_each_skip. intros w1 acc1 _. by apply step_vehicle.
Qed.

Lemma vehicle_vin_example_excluded_witness :
  fst (create_few_shot_examples env0 extractor0
         (world_with (json_text (JArr [contract_example; vehicle_example; contract_example])))) =
  Ok (collected env0 [contract_example; contract_example]
        (world_with (json_text (JArr [contract_example; vehicle_example; contract_example])))).
Proof.
  apply (vehicle_vin_example_excluded env0 extractor0 _ [contract_example] [contract_example]
           vehicle_example).
  - vm_compute. reflexivity.
  - exists [ ("pdf_path", JStr "examples/title.pdf");
             ("expected_output", JObj [ ("vehicle_vin", JStr "1HGCM82633A004352") ]) ],
      [ ("vehicle_vin", JStr "1HGCM82633A004352") ].
    split; [reflexivity | split; [reflexivity | by eexists]].
Defined.




(** ** Extraction *)

Lemma extract_data_from_pdf_unfold (env : Env) (self : ContractExtractor) (pdf_data : bytes)
    (w w1 : World) (few : list content) :
  create_few_shot_examples env self w = (Ok few, w1) ->
  extract_data_from_pdf env self pdf_data w =
  match client self (build_request self few pdf_data) with
  | Ok response => (Ok (parsed env response), w1)
  | Raise e =>
      (Raise e, add_log ERROR ("Error extracting contract data from PDF: " +:+ exn_str e) w1)
  end.
Proof.
  intros Hc. unfold extract_data_from_pdf, try_except, mbind, M_bind. rewrite Hc.
  unfold of_result. destruct (client self (build_request self few pdf_data)); reflexivity.
Qed.

Lemma extract_frame (env : Env) (self : ContractExtractor) (pdf_data : bytes) (w : World) :
  exists r entries, forall w2,
    (forall p, p ∈ few_shot_paths env self w -> fs w2 !! p = fs w !! p) ->
    extract_data_from_pdf env self pdf_data w2 = (r, log_ext w2 entries).
Proof.
  destruct (create_frame env self w) as (few & entries & H).
  destruct (client self (build_request self few pdf_data)) as [response|e] eqn:Hc.
  - exists (Ok (parsed env response)), entries. intros w2 Hag.
    rewrite (extract_data_from_pdf_unfold env self pdf_data w2 _ few (H w2 Hag)).
    by rewrite Hc.
  - exists (Raise e),
      (entries ++ [(ERROR, "Error extracting contract data from PDF: " +:+ exn_str e)])%list.
    intros w2 Hag.
    rewrite (extract_data_from_pdf_unfold env self pdf_data w2 _ few (H w2 Hag)).
    rewrite Hc. f_equal. unfold add_log, log_ext. simpl. by rewrite app_assoc.
Qed.

(** C1, as stated, fails twice.  A transport failure comes out as the
    very exception the client raised, not as an ExtractionError around
    it.  A reply that does not validate makes the call return [None]: it
    does not fail, and what it returns is no record. *)
Lemma failure_not_wrapped_reply_not_checked :
  (extract_data_from_pdf env0 (ContractExtractor_init silent_client None) "%PDF-1.4 contract"
     empty_world =
     (Raise (Exn "ConnectionError" "Connection refused" None),
      add_log ERROR "Error extracting contract data from PDF: Connection refused" empty_world) /\
   exn_class (Exn "ConnectionError" "Connection refused" None) <> "ExtractionError" /\
   exn_cause (Exn "ConnectionError" "Connection refused" None) = None) /\
  (from_json env2 (json_text reply_incomplete) =
     Some (JObj [ ("software_system_name", JStr "DealerTrack") ]) /\
   model_validate env2 [ ("software_system_name", JStr "DealerTrack") ] = None /\
   extract_data_from_pdf env2 (ContractExtractor_init (answering reply_incomplete) None)
     "%PDF-1.4 contract" empty_world = (Ok None, empty_world)).
Proof.
  split; [split; [vm_compute; reflexivity | split; [discriminate | reflexivity]] |].
  repeat split; vm_compute; reflexivity.
Qed.

(** The call has no check of the length of the bytes: empty bytes reach
    the client, and what becomes of them is the client's answer. *)
Example empty_bytes_reach_the_client :
  extract_data_from_pdf env0 (ContractExtractor_init (answering reply_minimal) None) ""
    empty_world = (Ok (Some (record_of "DEALER" (-1))), empty_world) /\
  extract_data_from_pdf env0 (ContractExtractor_init silent_client None) "" empty_world =
    (Raise (Exn "ConnectionError" "Connection refused" None),
     add_log ERROR "Error extracting contract data from PDF: Connection refused" empty_world).
Proof. split; vm_compute; reflexivity. Qed.

(** C1, amended.  Whatever the PDF bytes, empty ones included, and with
    [few] the few-shot examples the call loads: if the client raises, the
    call logs the error and raises that same exception, unwrapped; and a
    record the call returns is the validated reply of the client to that
    request, never a record of the call's own making.  What the call does
    with a reply that does not validate is no part of this statement. *)
Theorem extract_data_from_pdf_outcome (env : Env) (self : ContractExtractor)
    (pdf_data : bytes) (w : World) :
  exists few entries,
    create_few_shot_examples env self w = (Ok few, log_ext w entries) /\
    (forall e, client self (build_request self few pdf_data) = Raise e ->
       extract_data_from_pdf env self pdf_data w =
       (Raise e, log_ext w (entries ++
          [(ERROR, "Error extracting contract data from PDF: " +:+ exn_str e)])%list)) /\
    (forall r, fst (extract_data_from_pdf env self pdf_data w) = Ok (Some r) ->
       exists response,
         client self (build_request self few pdf_data) = Ok response /\
         model_validate_json env (text response) = Some r).
Proof.
  destruct (create_frame env self w) as (few & entries & H).
  exists few, entries. split; [by apply H |].
  rewrite (extract_data_from_pdf_unfold env self pdf_data w _ few (H w ltac:(done))).
  split.
  - intros e He. rewrite He. f_equal. unfold add_log, log_ext. simpl. by rewrite app_assoc.
  - intros r Hr. destruct (client self (build_request self few pdf_data)) as [response|e].
    + exists response. split; [reflexivity |]. simpl in Hr. unfold parsed in Hr. congruence.
    + discriminate Hr.
Qed.

Lemma extract_data_from_pdf_outcome_witness :
  (exists response,
     answering reply_minimal
       (build_request (ContractExtractor_init (answering reply_minimal) None) [] "") =
       Ok response /\
     model_validate_json env0 (text response) = Some (record_of "DEALER" (-1))) /\
  fst (extract_data_from_pdf env0 (ContractExtractor_init silent_client None) ""
         empty_world) =
    Raise (Exn "ConnectionError" "Connection refused" None).
Proof.
  split.
  - destruct (extract_data_from_pdf_outcome env0
                (ContractExtractor_init (answering reply_minimal) None) "" empty_world)
      as (few & entries & Hc & _ & Hrec).
    destruct (Hrec (record_of "DEALER" (-1))) as (response & Hr & Hv).
    { vm_compute. reflexivity. }
    exists response. split; [| exact Hv]. simpl in Hr. exact Hr.
  - destruct (extract_data_from_pdf_outcome env0
                (ContractExtractor_init silent_client None) "" empty_world)
      as (few & entries & _ & Hraise & _).
    rewrite (Hraise (Exn "ConnectionError" "Connection refused" None) eq_refl).
    reflexivity.
Defined.

(** C2, as stated, fails in one direction: a reply that spells out
    "DEALER" and -1 yields these values although neither key was left
    out. *)
Lemma explicit_defaults_not_omitted :
  extract_data_from_pdf env0 (ContractExtractor_init (answering reply_explicit) None)
    "%PDF-1.4 contract" empty_world =
    (Ok (Some (record_of "DEALER" (-1))), empty_world) /\
  from_json env0 (json_text reply_explicit) =
    Some (JObj (required_members ++
                [ ("data_ownership", JStr "DEALER"); ("license_count", JInt (-1)) ])%list) /\
  dict_get "data_ownership"
    (required_members ++ [ ("data_ownership", JStr "DEALER"); ("license_count", JInt (-1)) ])%list
    = Some (JStr "DEALER") /\
  dict_get "license_count"
    (required_members ++ [ ("data_ownership", JStr "DEALER"); ("license_count", JInt (-1)) ])%list
    = Some (JInt (-1)).
Proof. repeat split; vm_compute; reflexivity. Qed.

(** C2, amended.  When the model's reply is a JSON object that validates
    to the record [r], the call returns [r]; its data ownership is
    "DEALER" if the reply left the key out and the reply's own string if
    not, so it is "DEALER" exactly when the key was left out or sent as
    "DEALER"; its license count is -1 if the reply left the key out and
    the reply's own integer if not. *)
Theorem extract_defaults (env : Env) (self : ContractExtractor) (pdf_data : bytes)
    (w w1 : World) (few : list content) (response : Response)
    (d : list (string * json)) (r : SoftwareContract) :
  create_few_shot_examples env self w = (Ok few, w1) ->
  client self (build_request self few pdf_data) = Ok response ->
  from_json env (text response) = Some (JObj d) ->
  model_validate env d = Some r ->
  extract_data_from_pdf env self pdf_data w = (Ok (Some r), w1) /\
  (dict_get "data_ownership" d = None -> data_ownership r = "DEALER") /\
  (forall v, dict_get "data_ownership" d = Some v -> v = JStr (data_ownership r)) /\
  (data_ownership r = "DEALER" <->
     dict_get "data_ownership" d = None \/
     dict_get "data_ownership" d = Some (JStr "DEALER")) /\
  (dict_get "license_count" d = None -> license_count r = -1) /\
  (forall n, dict_get "license_count" d = Some (JInt n) -> license_count r = n) /\
  (license_count r = -1 <->
     dict_get "license_count" d = None \/
     exists v, dict_get "license_count" d = Some v /\ validate_int env v = Some (-1)).
Proof.
  intros Hc Hcl Hj Hv.
  destruct (model_validate_data_ownership env d r Hv) as [Ho1 Ho2].
  destruct (model_validate_license_count env d r Hv) as [Hl1 Hl2].
  split; [| split; [| split; [| split; [| split; [| split]]]]].
  - rewrite (extract_data_from_pdf_unfold env self pdf_data w w1 few Hc), Hcl.
    unfold parsed, model_validate_json. by rewrite Hj, Hv.
  - exact Ho1.
  - exact Ho2.
  - split.
    + intros Hd. destruct (dict_get "data_ownership" d) as [v|] eqn:E; [| by left].
      right. rewrite (Ho2 v eq_refl). by rewrite Hd.
    + intros [Hn | Hs]; [by apply Ho1 |]. apply Ho2 in Hs. congruence.
  - exact Hl1.
  - intros n Hn. apply Hl2 in Hn. simpl in Hn. congruence.
  - split.
    + intros Hd. destruct (dict_get "license_count" d) as [v|] eqn:E; [| by left].
      right. exists v. split; [done |]. rewrite (Hl2 v eq_refl). by rewrite Hd.
    + intros [Hn | (v & Hs & Hvv)]; [by apply Hl1 |]. apply Hl2 in Hs. congruence.
Qed.

Lemma extract_defaults_witness :
  extract_data_from_pdf env0 (ContractExtractor_init (answering reply_minimal) None)
    "%PDF-1.4 contract" empty_world =
    (Ok (Some (record_of "DEALER" (-1))), empty_world) /\
  data_ownership (record_of "DEALER" (-1)) = "DEALER" /\
  license_count (record_of "DEALER" (-1)) = -1.
Proof.
  destruct (extract_defaults env0 (ContractExtractor_init (answering reply_minimal) None)
              "%PDF-1.4 contract" empty_world empty_world []
              {| text := json_text reply_minimal |} required_members
              (record_of "DEALER" (-1)))
    as (He & Ho & _ & _ & Hl & _).
  - reflexivity.
  - reflexivity.
  - vm_compute. reflexivity.
  - vm_compute. reflexivity.
  - split; [exact He | split; [apply Ho | apply Hl]]; reflexivity.
Defined.

(** C6, as stated, fails for the records the system produces: a reply
    that sends the empty string as data ownership validates, and the
    record keeps the empty string. *)
Lemma empty_data_ownership_produced :
  extract_data_from_pdf env0 (ContractExtractor_init (answering reply_empty_owner) None)
    "%PDF-1.4 contract" empty_world =
    (Ok (Some (record_of "" (-1))), empty_world) /\
  data_ownership (record_of "" (-1)) = "".
Proof. split; [vm_compute; reflexivity | reflexivity]. Qed.

(** C6, amended.  A record produced by validation has the data ownership
    "DEALER" when the reply left the key out and the string the reply
    sent otherwise, and an integer license count, -1 when the reply left
    the key out.  In every rendering the data ownership shown is not
    empty, an empty one being shown as "DEALER", and the license count
    shown is "Unlimited" for -1 and the number otherwise. *)
Theorem ownership_and_license_fallbacks (env : Env) :
  (forall d r, model_validate env d = Some r ->
     (dict_get "data_ownership" d = None -> data_ownership r = "DEALER") /\
     (forall v, dict_get "data_ownership" d = Some v -> v = JStr (data_ownership r)) /\
     (dict_get "license_count" d = None -> license_count r = -1) /\
     (forall v, dict_get "license_count" d = Some v ->
        validate_int env v = Some (license_count r))) /\
  (forall c, exists s,
     row "Data Ownership" (data_dict c) = Some (VStr s) /\ s <> "" /\
     (data_ownership c = "" -> s = "DEALER") /\
     (data_ownership c <> "" -> s = data_ownership c)) /\
  (forall c,
     row "License Count" (data_dict c) =
     Some (VStr (if license_count c =? -1 then "Unlimited" else str_int (license_count c)))).
Proof.
  split; [| split].
  - intros d r Hv.
    destruct (model_validate_data_ownership env d r Hv) as [Ho1 Ho2].
    destruct (model_validate_license_count env d r Hv) as [Hl1 Hl2].
    done.
  - intros c. exists (str_or (data_ownership c) "DEALER").
    split; [reflexivity |].
    unfold str_or, truthy_str.
    destruct (String.eqb (data_ownership c) "") eqn:E; simpl.
    + apply String.eqb_eq in E. split; [discriminate | split; [done | congruence]].
    + apply String.eqb_neq in E. done.
  - intros c. simpl. by destruct (license_count c =? -1).
Qed.

Lemma ownership_and_license_fallbacks_witness :
  data_ownership (record_of "DEALER" (-1)) = "DEALER" /\
  license_count (record_of "DEALER" (-1)) = -1 /\
  row "Data Ownership" (data_dict (record_of "" (-1))) = Some (VStr "DEALER").
Proof.
  destruct (ownership_and_license_fallbacks env0) as (Hv & Hd & _).
  destruct (Hv required_members (record_of "DEALER" (-1))) as (Ho & _ & Hl & _).
  { vm_compute. reflexivity. }
  destruct (Hd (record_of "" (-1))) as (s & Hrow & _ & Hempty & _).
  split; [apply Ho; reflexivity | split; [apply Hl; reflexivity |]].
  rewrite Hrow, Hempty; reflexivity.
Defined.

(** ** Uploaded files *)

Lemma extract_data_from_uploaded_file_unfold (env : Env) (self : ContractExtractor)
    (uploaded_file : UploadedFile) (w : World) :
  closed uploaded_file = false ->
  fs w !! (mkstemp_name env +:+ ".pdf") = None ->
  (nbytes (buffer uploaded_file) <= disk_free w)%N ->
  extract_data_from_uploaded_file env self uploaded_file w =
  try_finally (extract_data_from_pdf env self (buffer uploaded_file))
    (os_unlink (mkstemp_name env +:+ ".pdf"))
    (staged (mkstemp_name env +:+ ".pdf") (buffer uploaded_file) w).
Proof.
  intros Hopen Hfresh Hroom.
  unfold extract_data_from_uploaded_file, mbind, M_bind, create_temporary_file, getvalue,
    of_result, write_file, mret, M_ret.
  rewrite Hfresh, Hopen. simpl. rewrite lookup_insert_eq.
  apply N.leb_le in Hroom. rewrite Hroom. simpl.
  rewrite insert_insert_eq.
  unfold try_finally, extract_data_from_file, mbind, M_bind, read_file, staged. simpl.
  rewrite lookup_insert_eq. reflexivity.
Qed.

Lemma unlink_staged (name : string) (value : bytes) (w : World)
    (entries : list (level * string)) :
  fs w !! name = None ->
  (nbytes value <= disk_free w)%N ->
  os_unlink name (log_ext (staged name value w) entries) = (Ok tt, log_ext w entries).
Proof.
  intros Hfresh Hroom. unfold os_unlink, staged, log_ext, set_fs. simpl.
  rewrite lookup_insert_eq. f_equal. f_equal.
  - by apply delete_insert_id.
  - lia.
Qed.

(** Once the upload is staged, the temporary file is gone when the call
    ends, whether extraction returned or raised. *)
Lemma staged_file_removed (env : Env) (self : ContractExtractor)
    (uploaded_file : UploadedFile) (w : World) :
  closed uploaded_file = false ->
  fs w !! (mkstemp_name env +:+ ".pdf") = None ->
  (nbytes (buffer uploaded_file) <= disk_free w)%N ->
  fs (snd (extract_data_from_uploaded_file env self uploaded_file w)) = fs w.
Proof.
  intros Hopen Hfresh Hroom.
  rewrite extract_data_from_uploaded_file_unfold by done.
  destruct (extract_frame env self (buffer uploaded_file)
              (staged (mkstemp_name env +:+ ".pdf") (buffer uploaded_file) w))
    as (r & entries & H).
  unfold try_finally. rewrite H by done. rewrite unlink_staged by done. reflexivity.
Qed.

(** C7.  The code leaves the staged file behind when staging itself
    fails: when the disk has no room for the upload, and when the upload
    is a closed buffer, the call raises and the temporary file is still
    there. *)
Theorem staged_file_left_when_staging_fails :
  (extract_data_from_uploaded_file env0 (ContractExtractor_init (answering reply_minimal) None)
     upload full_world =
     (Raise (Exn "OSError" "[Errno 28] No space left on device" None),
      set_fs {[ temp_path := File "" ]} 4%N full_world) /\
   fs (snd (extract_data_from_uploaded_file env0
              (ContractExtractor_init (answering reply_minimal) None) upload full_world))
     !! temp_path = Some (File "")) /\
  (extract_data_from_uploaded_file env0 (ContractExtractor_init (answering reply_minimal) None)
     closed_upload empty_world =
     (Raise (Exn "ValueError" "I/O operation on closed file." None),
      set_fs {[ temp_path := File "" ]} 1000%N empty_world) /\
   fs (snd (extract_data_from_uploaded_file env0
              (ContractExtractor_init (answering reply_minimal) None) closed_upload empty_world))
     !! temp_path = Some (File "")).
Proof. repeat split; vm_compute; reflexivity. Qed.

(** C9, as stated, fails: with no room on the disk for the upload the
    call on the upload raises while staging, and [extract_data_from_pdf]
    on the same bytes returns the record. *)
Lemma upload_fails_on_full_disk :
  extract_data_from_uploaded_file env0 (ContractExtractor_init (answering reply_minimal) None)
    upload full_world =
    (Raise (Exn "OSError" "[Errno 28] No space left on device" None),
     set_fs {[ temp_path := File "" ]} 4%N full_world) /\
  extract_data_from_pdf env0 (ContractExtractor_init (answering reply_minimal) None)
    (buffer upload) full_world =
    (Ok (Some (record_of "DEALER" (-1))), full_world).
Proof. split; vm_compute; reflexivity. Qed.

(** The staged file must not be a file the few-shot loader reads: were
    the manifest configured under the temporary name, the call on the
    upload would read the uploaded bytes as the manifest and send another
    request than [extract_data_from_pdf] does. *)
Example staged_file_read_as_manifest :
  fst (extract_data_from_uploaded_file env0
         (ContractExtractor_init terse_client (Some temp_path)) manifest_upload
         (world_with "[]")) =
    Raise (Exn "ServerError" "Request too large" None) /\
  fst (extract_data_from_pdf env0
         (ContractExtractor_init terse_client (Some temp_path)) (buffer manifest_upload)
         (world_with "[]")) =
    Ok (Some (record_of "DEALER" (-1))).
Proof. split; vm_compute; reflexivity. Qed.

(** C9, amended.  When the upload can be staged (the buffer is open, the
    temporary name is free, the disk has room) and the temporary file is
    none of the files the few-shot loader looks at, the call on the
    upload has the outcome of [extract_data_from_pdf] on the bytes of the
    upload: the same result or exception, the same log, the same files. *)
Theorem uploaded_file_same_as_pdf (env : Env) (self : ContractExtractor)
    (uploaded_file : UploadedFile) (w : World) :
  closed uploaded_file = false ->
  fs w !! (mkstemp_name env +:+ ".pdf") = None ->
  (nbytes (buffer uploaded_file) <= disk_free w)%N ->
  (mkstemp_name env +:+ ".pdf") ∉ few_shot_paths env self w ->
  extract_data_from_uploaded_file env self uploaded_file w =
  extract_data_from_pdf env self (buffer uploaded_file) w.
Proof.
  intros Hopen Hfresh Hroom Hother.
  rewrite extract_data_from_uploaded_file_unfold by done.
  destruct (extract_frame env self (buffer uploaded_file) w) as (r & entries & H).
  unfold try_finally. rewrite (H w) by done.
  rewrite (H (staged (mkstemp_name env +:+ ".pdf") (buffer uploaded_file) w)).
  - rewrite unlink_staged by done. reflexivity.
  - intros p Hp. unfold staged. simpl. apply lookup_insert_ne. intros <-. done.
Qed.

Lemma uploaded_file_same_as_pdf_witness :
  extract_data_from_uploaded_file env0
    (ContractExtractor_init (answering reply_minimal) (Some "examples.json")) upload
    (world_with (json_text (JArr [contract_example; vehicle_example; contract_example]))) =
  extract_data_from_pdf env0
    (ContractExtractor_init (answering reply_minimal) (Some "examples.json"))
    "%PDF-1.4 contract"
    (world_with (json_text (JArr [contract_example; vehicle_example; contract_example]))).
Proof.
  apply (uploaded_file_same_as_pdf env0
           (ContractExtractor_init (answering reply_minimal) (Some "examples.json")) upload
           (world_with (json_text (JArr [contract_example; vehicle_example; contract_example])))).
  - reflexivity.
  - vm_compute. reflexivity.
  - vm_compute. discriminate.
  - apply (bool_decide_unpack _). vm_compute. exact I.
Defined.

(** * Further properties *)

(** ** More on validation *)

(** X1.  A reply in which one of the three required fields is missing,
    or is not a string, does not validate: no record is built and
    [parsed] is [None]. *)
Theorem required_field_missing (env : Env) (d : list (string * json)) (k : string) :
  k ∈ required_keys ->
  dict_get k d = None \/ (exists v, dict_get k d = Some v /\ forall s, v <> JStr s) ->
  model_validate env d = None /\
  (forall t, from_json env t = Some (JObj d) -> parsed env {| text := t |} = None).
Proof.
  intros Hk Hbad.
  assert (Hreq : required validate_str k d = None).
  { unfold required. destruct Hbad as [-> | (v & -> & Hv)]; [done |].
    destruct v; simpl; try done. by destruct (Hv s). }
  assert (Hm : model_validate env d = None).
  { unfold model_validate, required_keys in *.
    repeat (apply elem_of_cons in Hk as [-> | Hk]; [rewrite Hreq; simpl | ]).
    - reflexivity.
    - destruct (required validate_str "software_system_name" d); reflexivity.
    - destruct (required validate_str "software_system_name" d); simpl; [| reflexivity].
      destruct (required validate_str "vendor_name_dba" d); reflexivity.
    - by apply elem_of_nil in Hk. }
  split; [exact Hm |].
  intros t Ht. unfold parsed, model_validate_json. simpl. by rewrite Ht.
Qed.


Lemma model_validate_inv (env : Env) (d : list (string * json)) (r : SoftwareContract) :
  model_validate env d = Some r ->
  optional validate_str "contract_start" d = Some (contract_start r) /\
  optional validate_str "contract_end" d = Some (contract_end r) /\
  optional (validate_int env) "contract_period" d = Some (contract_period r) /\
  optional (validate_bool env) "auto_renewal" d = Some (auto_renewal r) /\
  optional (validate_int env) "cancellation_notice_initial" d =
    Some (cancellation_notice_initial r) /\
  optional (validate_int env) "cancellation_notice_ongoing" d =
    Some (cancellation_notice_ongoing r) /\
  optional validate_str "payment_terms" d = Some (payment_terms r) /\
  optional (validate_int env) "payment_delay" d = Some (payment_delay r) /\
  optional (validate_float env) "payment_amount_setup" d = Some (payment_amount_setup r) /\
  optional (validate_float env) "payment_amount_per_terms" d =
    Some (payment_amount_per_terms r) /\
  optional validate_str "sla_uptime_guarantee" d = Some (sla_uptime_guarantee r) /\
  optional validate_str "integration_clauses" d = Some (integration_clauses r).
Proof.
  intros H. unfold model_validate in H. unfold_binds H.
  injection H as <-. repeat split.
Qed.

Lemma optional_absent {A} (validate : json -> option A) (k : string)
    (d : list (string * json)) (x : option A) :
  optional validate k d = Some x ->
  dict_get k d = None \/ dict_get k d = Some JNull ->
  x = None.
Proof. unfold optional. intros H [E | E]; rewrite E in H; congruence. Qed.

(** X2.  In a reply that validates, an explicit [null] under any of the
    twelve optional fields reads as an absent field.  A [null] under
    [data_ownership] does not fall back to the default: the reply does
    not validate. *)
Theorem null_reads_as_absent (env : Env) (d : list (string * json)) :
  (forall r, model_validate env d = Some r ->
     (dict_get "contract_start" d = None \/ dict_get "contract_start" d = Some JNull ->
        contract_start r = None) /\
     (dict_get "contract_end" d = None \/ dict_get "contract_end" d = Some JNull ->
        contract_end r = None) /\
     (dict_get "contract_period" d = None \/ dict_get "contract_period" d = Some JNull ->
        contract_period r = None) /\
     (dict_get "auto_renewal" d = None \/ dict_get "auto_renewal" d = Some JNull ->
        auto_renewal r = None) /\
     (dict_get "cancellation_notice_initial" d = None \/
      dict_get "cancellation_notice_initial" d = Some JNull ->
        cancellation_notice_initial r = None) /\
     (dict_get "cancellation_notice_ongoing" d = None \/
      dict_get "cancellation_notice_ongoing" d = Some JNull ->
        cancellation_notice_ongoing r = None) /\
     (dict_get "payment_terms" d = None \/ dict_get "payment_terms" d = Some JNull ->
        payment_terms r = None) /\
     (dict_get "payment_delay" d = None \/ dict_get "payment_delay" d = Some JNull ->
        payment_delay r = None) /\
     (dict_get "payment_amount_setup" d = None \/
      dict_get "payment_amount_setup" d = Some JNull ->
        payment_amount_setup r = None) /\
     (dict_get "payment_amount_per_terms" d = None \/
      dict_get "payment_amount_per_terms" d = Some JNull ->
        payment_amount_per_terms r = None) /\
     (dict_get "sla_uptime_guarantee" d = None \/
      dict_get "sla_uptime_guarantee" d = Some JNull ->
        sla_uptime_guarantee r = None) /\
     (dict_get "integration_clauses" d = None \/
      dict_get "integration_clauses" d = Some JNull ->
        integration_clauses r = None)) /\
  (dict_get "data_ownership" d = Some JNull -> model_validate env d = None).
Proof.
  split.
  - intros r Hr.
    destruct (model_validate_inv env d r Hr)
      as (H1 & H2 & H3 & H4 & H5 & H6 & H7 & H8 & H9 & H10 & H11 & H12).
    repeat split; intros Hk; eapply optional_absent; eassumption.
  - intros Hnull. destruct (model_validate env d) as [r|] eqn:Hr; [| reflexivity].
    apply model_validate_data_ownership in Hr as [_ Hr]. by specialize (Hr _ Hnull).
Qed.

Lemma null_reads_as_absent_witness :
  contract_end (record_of "DEALER" (-1)) = None /\
  model_validate env0 (required_members ++ [ ("data_ownership", JNull) ])%list = None.
Proof.
  destruct (null_reads_as_absent env0 reply_with_nulls) as [H _].
  destruct (H (record_of "DEALER" (-1))) as (_ & He & _).
  { vm_compute. reflexivity. }
  destruct (null_reads_as_absent env0
              (required_members ++ [ ("data_ownership", JNull) ])%list) as [_ Hd].
  split; [apply He; right; reflexivity | apply Hd; reflexivity].
Defined.

Lemma required_field_missing_witness :
  model_validate env0 [ ("software_system_name", JStr "DealerTrack");
                        ("vendor_name_legal", JStr "Acme Software LLC") ] = None.
Proof.
  apply (required_field_missing env0 _ "vendor_name_dba").
  - unfold required_keys. apply list_elem_of_further, list_elem_of_here.
  - left. reflexivity.
Defined.

Lemma required_round (k : string) (d : list (string * json)) (s : string) :
  dict_get k d = Some (JStr s) -> required validate_str k d = Some s.
Proof. unfold required. by intros ->. Qed.

Lemma optional_round_str (k : string) (d : list (string * json)) (o : option string) :
  dict_get k d = Some (jopt JStr o) -> optional validate_str k d = Some o.
Proof. unfold optional. intros ->. by destruct o. Qed.

Lemma optional_round_int (env : Env) (k : string) (d : list (string * json)) (o : option Z) :
  dict_get k d = Some (jopt JInt o) -> optional (validate_int env) k d = Some o.
Proof. unfold optional. intros ->. by destruct o. Qed.

Lemma optional_round_bool (env : Env) (k : string) (d : list (string * json))
    (o : option bool) :
  dict_get k d = Some (jopt JBool o) -> optional (validate_bool env) k d = Some o.
Proof. unfold optional. intros ->. by destruct o. Qed.

Lemma optional_round_float (env : Env) (k : string) (d : list (string * json))
    (o : option spec_float) :
  dict_get k d = Some (jopt JFloat o) -> optional (validate_float env) k d = Some o.
Proof. unfold optional. intros ->. by destruct o. Qed.

(** X3.  Validation gives back every record from its JSON object, each
    field under its own key with a value of the declared type, whatever
    other members follow. *)
Theorem model_validate_to_object (env : Env) (c : SoftwareContract)
    (extra : list (string * json)) :
  model_validate env (to_object c ++ extra)%list = Some c.
Proof.
  unfold model_validate.
  rewrite (required_round "software_system_name" _ (software_system_name c)) by reflexivity.
  rewrite (required_round "vendor_name_dba" _ (vendor_name_dba c)) by reflexivity.
  rewrite (required_round "vendor_name_legal" _ (vendor_name_legal c)) by reflexivity.
  rewrite (optional_round_str "contract_start" _ (contract_start c)) by reflexivity.
  rewrite (optional_round_str "contract_end" _ (contract_end c)) by reflexivity.
  rewrite (optional_round_int env "contract_period" _ (contract_period c)) by reflexivity.
  rewrite (optional_round_bool env "auto_renewal" _ (auto_renewal c)) by reflexivity.
  rewrite (optional_round_int env "cancellation_notice_initial" _
             (cancellation_notice_initial c)) by reflexivity.
  rewrite (optional_round_int env "cancellation_notice_ongoing" _
             (cancellation_notice_ongoing c)) by reflexivity.
  rewrite (optional_round_str "payment_terms" _ (payment_terms c)) by reflexivity.
  rewrite (optional_round_int env "payment_delay" _ (payment_delay c)) by reflexivity.
  rewrite (optional_round_float env "payment_amount_setup" _ (payment_amount_setup c))
    by reflexivity.
  rewrite (optional_round_float env "payment_amount_per_terms" _
             (payment_amount_per_terms c)) by reflexivity.
  rewrite (optional_round_str "sla_uptime_guarantee" _ (sla_uptime_guarantee c)) by reflexivity.
  rewrite (optional_round_str "integration_clauses" _ (integration_clauses c)) by reflexivity.
  unfold defaulted.
  replace (dict_get "data_ownership" (to_object c ++ extra)%list)
    with (Some (JStr (data_ownership c))) by reflexivity.
  replace (dict_get "license_count" (to_object c ++ extra)%list)
    with (Some (JInt (license_count c))) by reflexivity.
  simpl. by destruct c.
Qed.


(** ** More on the few-shot examples *)

Lemma step_usable (env : Env) (w w1 : World) (e : json) (pdf : bytes) (acc : list content) :
  usable_example w e pdf ->
  fs w1 = fs w ->
  example_step env e (w1, acc) =
  (Ok tt, (w1, (acc ++ triple env pdf (expected_output_of e))%list)).
Proof.
  intros ((d & -> & Hguard) & p & Hp & Hf) Hw. unfold pdf_path_of in Hp.
  destruct (dict_get "pdf_path" d) as [[| | | |p'| |]|] eqn:Hd; try discriminate.
  injection Hp as ->. rewrite <- Hw in Hf.
  unfold example_step, expected_output_of, triple. run_M.
  destruct Hguard as [Hnone | (expected & Hexp & Hv)].
  - rewrite Hnone. simpl. rewrite Hd. simpl. rewrite Hf.
    rewrite bool_decide_true by by eexists. simpl. rewrite Hf. reflexivity.
  - rewrite Hexp. simpl. rewrite Hv.
    rewrite bool_decide_false by (intros [? ?]; discriminate). simpl.
    rewrite Hd. simpl. rewrite Hf.
    rewrite bool_decide_true by by eexists. simpl. rewrite Hf. reflexivity.
Qed.

Lemma step_malformed (env : Env) (e : json) :
  malformed_example e ->
  exists ex, forall w acc, example_step env e (w, acc) = (Raise ex, (w, acc)).
Proof.
  intros [Hno | ((d & -> & Hguard) & Hp)].
  - destruct e; try (eexists; intros; reflexivity). by destruct (Hno members).
  - unfold pdf_path_of in Hp. unfold example_step.
    assert (Hin : py_in "vehicle_vin" (default (JObj []) (dict_get "expected_output" d))
                  = Ok false).
    { destruct Hguard as [-> | (expected & -> & Hv)]; simpl; [done |].
      rewrite Hv. by rewrite bool_decide_false by (intros [? ?]; discriminate). }
    destruct (dict_get "pdf_path" d) as [v|] eqn:Hd.
    + destruct v; try discriminate;
        (eexists; intros; run_M; rewrite Hin; simpl; rewrite Hd; reflexivity).
    + eexists. intros. run_M. rewrite Hin. simpl. rewrite Hd. reflexivity.
Qed.

(** What one turn of the loop adds is nothing or one triple. *)
Lemma example_step_triples (env : Env) (e : json) (w : World) (acc : list content) :
  exists r w' l,
    example_step env e (w, acc) =
    (r, (w', (acc ++ flat_map (fun x => triple env (fst x) (snd x)) l)%list)).
Proof.
  unfold example_step.
  destruct e as [| | | | | |d];
    try (eexists _, _, []; run_M; simpl; rewrite app_nil_r; reflexivity).
  simpl py_get.
  destruct (py_in "vehicle_vin" (default (JObj []) (dict_get "expected_output" d)))
    as [[|]|ex] eqn:Hin.
  - eexists _, _, []. run_M. rewrite Hin. simpl. rewrite app_nil_r. reflexivity.
  - simpl py_getitem.
    destruct (dict_get "pdf_path" d) as [v|] eqn:Hp.
    + destruct v as [| | | |p| |];
        try (eexists _, _, []; run_M; rewrite Hin; simpl; rewrite ?Hp; simpl;
             rewrite app_nil_r; reflexivity).
      destruct (fs w !! p) as [[c|]|] eqn:Hf.
      * eexists _, _, [(c, default (JObj []) (dict_get "expected_output" d))].
        run_M. rewrite Hin. simpl. rewrite ?Hp. simpl. rewrite Hf. simpl. rewrite Hf.
        reflexivity.
      * eexists _, _, []. run_M. rewrite Hin. simpl. rewrite ?Hp. simpl. rewrite Hf. simpl.
        rewrite Hf. rewrite app_nil_r. reflexivity.
      * eexists _, _, []. run_M. rewrite Hin. simpl. rewrite ?Hp. simpl. rewrite Hf. simpl.
        rewrite app_nil_r. reflexivity.
    + eexists _, _, []. run_M. rewrite Hin. simpl. rewrite ?Hp. simpl.
      rewrite app_nil_r. reflexivity.
  - eexists _, _, []. run_M. rewrite Hin. simpl. rewrite app_nil_r. reflexivity.
Qed.

Lemma for_each_triples (env : Env) (es : list json) (w : World) (acc : list content) :
  exists r w' l,
    for_each es (example_step env) (w, acc) =
    (r, (w', (acc ++ flat_map (fun x => triple env (fst x) (snd x)) l)%list)).
Proof.
  revert w acc. induction es as [|e es IH]; intros w acc.
  - exists (Ok tt), w, []. simpl. by rewrite app_nil_r.
  - destruct (example_step_triples env e w acc) as (r1 & w1 & l1 & H1).
    simpl. unfold mbind, M_bind. rewrite H1.
    destruct r1 as [[]|ex].
    + destruct (IH w1 (acc ++ flat_map (fun x => triple env (fst x) (snd x)) l1)%list)
        as (r2 & w2 & l2 & H2).
      exists r2, w2, (l1 ++ l2)%list. rewrite H2. by rewrite flat_map_app, app_assoc.
    + by exists (Raise ex), w1, l1.
Qed.

(** X4.  Whatever the manifest holds, the list
    [create_few_shot_examples] returns is made of whole triples: the
    instruction, a PDF part, the dumped expected output. *)
Theorem few_shot_examples_are_triples (env : Env) (self : ContractExtractor) (w : World) :
  exists l : list (bytes * json),
    fst (create_few_shot_examples env self w) =
      Ok (flat_map (fun x => triple env (fst x) (snd x)) l) /\
    length (flat_map (fun x => triple env (fst x) (snd x)) l) = (3 * length l)%nat.
Proof.
  destruct (for_each_triples env (manifest_items env self w) w []) as (r & w' & l & H).
  exists l. split.
  - rewrite create_value. unfold collected. by rewrite H.
  - clear H. induction l as [|x l IH]; simpl; [done | rewrite IH; lia].
Qed.

Lemma collected_usable (env : Env) (w w1 : World) (es : list json) (pdfs : list bytes)
    (acc : list content) :
  Forall2 (usable_example w) es pdfs ->
  fs w1 = fs w ->
  for_each es (example_step env) (w1, acc) =
  (Ok tt, (w1, (acc ++ flat_map (fun x => triple env (snd x) (expected_output_of (fst x)))
                         (zip es pdfs))%list)).
Proof.
  intros Hall Hw. revert acc. induction Hall as [|e pdf es pdfs He Hall IH]; intros acc.
  - simpl. by rewrite app_nil_r.
  - simpl. unfold mbind, M_bind. rewrite (step_usable env w w1 e pdf acc He Hw).
    rewrite IH. by rewrite <- app_assoc.
Qed.

(** X5.  When every example of the manifest gets past the vehicle guard
    and names a file that is there, the call returns one triple per
    example, in the order of the manifest, with the bytes of that file and
    the dump of its expected output, and logs nothing. *)
Theorem usable_examples_in_order (env : Env) (self : ContractExtractor) (w : World)
    (pdfs : list bytes) :
  manifest_items env self w <> [] ->
  Forall2 (usable_example w) (manifest_items env self w) pdfs ->
  create_few_shot_examples env self w =
  (Ok (flat_map (fun x => triple env (snd x) (expected_output_of (fst x)))
         (zip (manifest_items env self w) pdfs)), w).
Proof.
  intros Hne Hall. rewrite create_on_items by done.
  by rewrite (collected_usable env w w _ pdfs [] Hall eq_refl).
Qed.

Lemma usable_examples_in_order_witness :
  create_few_shot_examples env1 extractor0
    (world_with (json_text (JArr [contract_example; foreign_example]))) =
  (Ok (triple env1 "%PDF-1.4 contract" (expected_output_of contract_example) ++
       triple env1 "%PDF-1.4 lease" (expected_output_of foreign_example))%list,
   world_with (json_text (JArr [contract_example; foreign_example]))).
Proof.
  assert (Hitems : manifest_items env1 extractor0
                     (world_with (json_text (JArr [contract_example; foreign_example]))) =
                   [contract_example; foreign_example]) by (vm_compute; reflexivity).
  pose proof (usable_examples_in_order env1 extractor0
                (world_with (json_text (JArr [contract_example; foreign_example])))
                ["%PDF-1.4 contract"; "%PDF-1.4 lease"]) as H.
  rewrite Hitems in H. apply H; [discriminate |].
  repeat constructor.
  - eexists. split; [reflexivity |]. right. eexists. split; reflexivity.
  - exists "examples/contract.pdf". split; [reflexivity | vm_compute; reflexivity].
  - eexists. split; [reflexivity |]. right. eexists. split; reflexivity.
  - exists "examples/lease.pdf". split; [reflexivity | vm_compute; reflexivity].
Defined.

(** X6.  An example that is no object, or that gets past the vehicle
    guard without a string under [pdf_path], ends the loop: the call
    returns what the examples before it gave, the examples after it are
    not looked at, and the last line of the log is the warning of the
    [except] clause. *)
Theorem malformed_example_ends_the_loop (env : Env) (self : ContractExtractor) (w : World)
    (pre post : list json) (e : json) :
  manifest_items env self w = (pre ++ e :: post)%list ->
  malformed_example e ->
  fst (create_few_shot_examples env self w) = Ok (collected env pre w) /\
  exists entries ex,
    snd (create_few_shot_examples env self w) =
    log_ext w (entries ++ [(WARNING, "Could not load few-shot examples: " +:+ exn_str ex)])%list.
Proof.
  intros Hitems Hbad. destruct (step_malformed env e Hbad) as (ex & Hstep).
  rewrite create_on_items by (rewrite Hitems; by destruct pre).
  rewrite Hitems, for_each_app. unfold collected.
  destruct (for_each_frame env pre w) as (r1 & es1 & it1 & H1).
  rewrite (H1 w []) by done.
  destruct r1 as [[]|ex1]; simpl.
  - unfold mbind, M_bind. rewrite Hstep. simpl. split; [reflexivity |].
    exists es1, ex. unfold add_log, log_ext. simpl. by rewrite app_assoc.
  - split; [reflexivity |].
    exists es1, ex1. unfold add_log, log_ext. simpl. by rewrite app_assoc.
Qed.

Lemma malformed_example_ends_the_loop_witness :
  fst (create_few_shot_examples env0 extractor0
         (world_with (json_text (JArr [contract_example; broken_example; contract_example])))) =
  Ok (collected env0 [contract_example]
        (world_with (json_text (JArr [contract_example; broken_example; contract_example])))).
Proof.
  apply (malformed_example_ends_the_loop env0 extractor0 _ [contract_example]
           [contract_example] broken_example).
  - vm_compute. reflexivity.
  - right. split; [| reflexivity].
    eexists. split; [reflexivity |]. right. eexists. split; reflexivity.
Defined.


(** ** More on extraction *)

Lemma example_step_levels (env : Env) (e : json) (w : World) (acc : list content) :
  exists r es acc',
    example_step env e (w, acc) = (r, (log_ext w es, acc')) /\
    existsb is_error es = false.
Proof.
  unfold example_step.
  destruct e as [| | | | | |d];
    try (eexists _, [], _; split; [run_M; rewrite log_ext_nil; reflexivity | reflexivity]).
  simpl py_get.
  destruct (py_in "vehicle_vin" (default (JObj []) (dict_get "expected_output" d)))
    as [[|]|ex] eqn:Hin.
  - eexists _, [(INFO, _)], _. split; [run_M; rewrite Hin; reflexivity | reflexivity].
  - simpl py_getitem.
    destruct (dict_get "pdf_path" d) as [v|] eqn:Hp.
    + destruct v as [| | | |p| |];
        try (eexists _, [], _; split;
             [run_M; rewrite Hin; simpl; rewrite log_ext_nil; reflexivity | reflexivity]).
      destruct (fs w !! p) as [[c|]|] eqn:Hf.
      * eexists _, [], _. split; [| reflexivity].
        run_M. rewrite Hin. simpl. rewrite Hf. simpl. rewrite Hf. rewrite log_ext_nil.
        reflexivity.
      * eexists _, [], _. split; [| reflexivity].
        run_M. rewrite Hin. simpl. rewrite Hf. simpl. rewrite Hf. rewrite log_ext_nil.
        reflexivity.
      * eexists _, [(WARNING, _)], _. split; [| reflexivity].
        run_M. rewrite Hin. simpl. rewrite Hf. simpl. reflexivity.
    + eexists _, [], _. split; [| reflexivity].
      run_M. rewrite Hin. simpl. rewrite log_ext_nil. reflexivity.
  - eexists _, [], _. split; [| reflexivity].
    run_M. rewrite Hin. simpl. rewrite log_ext_nil. reflexivity.
Qed.

Lemma for_each_levels (env : Env) (es : list json) (w : World) (acc : list content) :
  exists r entries acc',
    for_each es (example_step env) (w, acc) = (r, (log_ext w entries, acc')) /\
    existsb is_error entries = false.
Proof.
  revert w acc. induction es as [|e es IH]; intros w acc.
  - exists (Ok tt), [], acc. split; [| reflexivity]. simpl. by rewrite log_ext_nil.
  - destruct (example_step_levels env e w acc) as (r1 & es1 & acc1 & H1 & Hq1).
    simpl. unfold mbind, M_bind. rewrite H1.
    destruct r1 as [[]|ex].
    + destruct (IH (log_ext w es1) acc1) as (r2 & es2 & acc2 & H2 & Hq2).
      exists r2, (es1 ++ es2)%list, acc2. rewrite H2, log_ext_ext.
      split; [reflexivity |]. rewrite existsb_app, Hq1, Hq2. reflexivity.
    + by exists (Raise ex), es1, acc1.
Qed.

Lemma load_examples_levels (env : Env) (path : string) (w : World) :
  exists r entries acc',
    load_examples env path (w, []) = (r, (log_ext w entries, acc')) /\
    existsb is_error entries = false.
Proof.
  unfold load_examples.
  destruct (fs w !! path) as [[c|]|] eqn:Hf.
  - destruct (json_load env c) as [v|ex] eqn:Hj.
    + destruct (py_iter v) as [items|ex] eqn:Hi.
      * destruct (for_each_levels env items w []) as (r & entries & acc' & H & Hq).
        exists r, entries, acc'. split; [| exact Hq].
        run_M. rewrite Hf. simpl. rewrite Hj. simpl. rewrite Hi. simpl. exact H.
      * eexists _, [], _. split; [| reflexivity].
        run_M. rewrite Hf. simpl. rewrite Hj. simpl. rewrite Hi. simpl.
        by rewrite log_ext_nil.
    + eexists _, [], _. split; [| reflexivity].
      run_M. rewrite Hf. simpl. rewrite Hj. simpl. by rewrite log_ext_nil.
  - eexists _, [], _. split; [| reflexivity].
    run_M. rewrite Hf. simpl. by rewrite log_ext_nil.
  - eexists _, [], _. split; [| reflexivity].
    run_M. rewrite Hf. simpl. by rewrite log_ext_nil.
Qed.

Lemma create_levels (env : Env) (self : ContractExtractor) (w : World) :
  exists few entries,
    create_few_shot_examples env self w = (Ok few, log_ext w entries) /\
    existsb is_error entries = false.
Proof.
  destruct (few_shot_examples_path self) as [path|] eqn:Hpath.
  2: { exists [], []. split; [| reflexivity].
       unfold create_few_shot_examples. rewrite Hpath. by rewrite log_ext_nil. }
  destruct (truthy_str path) eqn:Ht.
  2: { exists [], []. split; [| reflexivity].
       unfold create_few_shot_examples. rewrite Hpath, Ht. by rewrite log_ext_nil. }
  destruct (fs w !! path) as [n|] eqn:Hf.
  - rewrite (create_on_existing env self path w Hpath Ht) by (rewrite Hf; by eexists).
    destruct (load_examples_levels env path w) as (r & entries & acc' & H & Hq).
    rewrite H. destruct r as [[]|ex]; simpl.
    + by exists acc', entries.
    + exists acc', (entries ++ [(WARNING, "Could not load few-shot examples: " +:+ exn_str ex)])%list.
      split.
      * f_equal. unfold add_log, log_ext. simpl. by rewrite app_assoc.
      * rewrite existsb_app, Hq. reflexivity.
  - exists [], []. split; [| reflexivity].
    unfold create_few_shot_examples. rewrite Hpath, Ht. simpl.
    unfold mbind, M_bind, path_exists. rewrite Hf.
    rewrite bool_decide_false by (intros [? ?]; discriminate). simpl.
    by rewrite log_ext_nil.
Qed.

(** X7.  [extract_data_from_pdf] changes nothing but the log.  When it
    returns, it has logged no line at level ERROR; when it raises, the
    last line it logged is the one ERROR line, with the text of the
    exception. *)
Theorem extract_logs_error_iff_raises (env : Env) (self : ContractExtractor)
    (pdf_data : bytes) (w : World) :
  exists entries,
    snd (extract_data_from_pdf env self pdf_data w) = log_ext w entries /\
    (forall v, fst (extract_data_from_pdf env self pdf_data w) = Ok v ->
       existsb is_error entries = false) /\
    (forall e, fst (extract_data_from_pdf env self pdf_data w) = Raise e ->
       exists before,
         entries = (before ++
           [(ERROR, "Error extracting contract data from PDF: " +:+ exn_str e)])%list /\
         existsb is_error before = false).
Proof.
  destruct (create_levels env self w) as (few & entries & Hc & Hq).
  rewrite (extract_data_from_pdf_unfold env self pdf_data w _ few Hc).
  destruct (client self (build_request self few pdf_data)) as [response|ex]; simpl.
  - exists entries. split; [reflexivity |]. split; [done |]. intros e He. discriminate.
  - exists (entries ++ [(ERROR, "Error extracting contract data from PDF: " +:+ exn_str ex)])%list.
    split; [| split].
    + unfold add_log, log_ext. simpl. by rewrite app_assoc.
    + intros v Hv. discriminate.
    + intros e He. injection He as <-. by exists entries.
Qed.

Lemma extract_logs_error_iff_raises_witness :
  log (snd (extract_data_from_pdf env0 (ContractExtractor_init silent_client None)
              "%PDF-1.4 contract" empty_world)) =
  [(ERROR, "Error extracting contract data from PDF: Connection refused")].
Proof.
  destruct (extract_logs_error_iff_raises env0 (ContractExtractor_init silent_client None)
              "%PDF-1.4 contract" empty_world) as (entries & Hw & _ & Hr).
  destruct (Hr (Exn "ConnectionError" "Connection refused" None)) as (before & -> & Hq).
  { vm_compute. reflexivity. }
  rewrite Hw. simpl.
  assert (Hlen : length (log (snd (extract_data_from_pdf env0
                   (ContractExtractor_init silent_client None) "%PDF-1.4 contract"
                   empty_world))) = 1%nat) by (vm_compute; reflexivity).
  rewrite Hw in Hlen. simpl in Hlen. rewrite length_app in Hlen. simpl in Hlen.
  destruct before; [reflexivity | simpl in Hlen; lia].
Defined.

(** X8.  When the manifest gives no items (no path, no file, a text
    that is no JSON, an empty list), the model is asked with exactly
    three contents, the system prompt, the PDF and the main prompt, and
    the call has the outcome of that request. *)
Theorem extract_without_examples (env : Env) (self : ContractExtractor)
    (pdf_data : bytes) (w : World) :
  manifest_items env self w = [] ->
  fst (extract_data_from_pdf env self pdf_data w) =
  match client self
          {| model := "models/gemini-2.0-flash";
             contents := [ CText (system_prompt self);
                           CPart {| data := pdf_data; mime_type := "application/pdf" |};
                           CText (main_prompt self) ];
             response_mime_type := "application/json";
             response_schema := "SoftwareContract" |} with
  | Ok response => Ok (parsed env response)
  | Raise e => Raise e
  end.
Proof.
  intros Hitems. pose proof (create_value env self w) as Hv. rewrite Hitems in Hv.
  destruct (create_few_shot_examples env self w) as [r w1] eqn:Hc. simpl in Hv. subst r.
  rewrite (extract_data_from_pdf_unfold env self pdf_data w w1 _ Hc).
  unfold collected, build_request. simpl.
  destruct (client self _); reflexivity.
Qed.

Lemma extract_without_examples_witness :
  fst (extract_data_from_pdf env0 (ContractExtractor_init (answering reply_minimal)
                                     (Some "examples.json"))
         "%PDF-1.4 contract" (world_with "[1, 2")) =
  Ok (Some (record_of "DEALER" (-1))).
Proof.
  rewrite (extract_without_examples env0 _ "%PDF-1.4 contract" (world_with "[1, 2")).
  - vm_compute. reflexivity.
  - vm_compute. reflexivity.
Defined.



(** ** More on uploads *)

(** X10.  When the upload can be staged, the call on the upload leaves
    the world as it found it but for lines in the log, whether the
    extraction returned or raised: the temporary file is gone and the
    disk space is back. *)
Theorem upload_leaves_only_log_lines (env : Env) (self : ContractExtractor)
    (uploaded_file : UploadedFile) (w : World) :
  closed uploaded_file = false ->
  fs w !! (mkstemp_name env +:+ ".pdf") = None ->
  (nbytes (buffer uploaded_file) <= disk_free w)%N ->
  exists entries,
    snd (extract_data_from_uploaded_file env self uploaded_file w) = log_ext w entries.
Proof.
  intros Hopen Hfresh Hroom.
  rewrite extract_data_from_uploaded_file_unfold by done.
  destruct (extract_frame env self (buffer uploaded_file)
              (staged (mkstemp_name env +:+ ".pdf") (buffer uploaded_file) w))
    as (r & entries & H).
  exists entries. unfold try_finally. rewrite H by done.
  by rewrite unlink_staged by done.
Qed.

Lemma upload_leaves_only_log_lines_witness :
  fs (snd (extract_data_from_uploaded_file env0 (ContractExtractor_init silent_client None)
             upload empty_world)) = ∅ /\
  fst (extract_data_from_uploaded_file env0 (ContractExtractor_init silent_client None)
         upload empty_world) = Raise (Exn "ConnectionError" "Connection refused" None).
Proof.
  destruct (upload_leaves_only_log_lines env0 (ContractExtractor_init silent_client None)
              upload empty_world) as (entries & H).
  - reflexivity.
  - vm_compute. reflexivity.
  - vm_compute. discriminate.
  - split; [rewrite H; reflexivity | vm_compute; reflexivity].
Defined.


(** ** More on rendering *)

Lemma int_of_str_str_int (n : Z) : int_of_str (str_int n) = Some n.
Proof.
  unfold int_of_str, str_int.
  rewrite NilZero.isi.
  - simpl. by rewrite DecimalZ.of_to.
  - destruct n; simpl; try discriminate.
    intros [= H]. by apply DecimalPos.Unsigned.to_uint_nonnil in H.
  - destruct n; simpl; try discriminate.
    intros [= H]. by apply DecimalPos.Unsigned.to_uint_nonnil in H.
Qed.

Lemma str_int_nonempty (n : Z) : str_int n <> "".
Proof.
  intros H. pose proof (int_of_str_str_int n) as Hn. rewrite H in Hn. discriminate.
Qed.

Lemma append_nonempty_r (s t : string) : t <> "" -> s +:+ t <> "".
Proof. destruct s; simpl; [done | discriminate]. Qed.

(** X11.  No row of the table is blank: every value is a non-empty
    text, except the payment delay, which is the number itself when it is
    present and not zero. *)
Theorem rows_are_never_blank (c : SoftwareContract) (label : string) (v : pyval) :
  row label (data_dict c) = Some v ->
  (exists s, v = VStr s /\ s <> "") \/
  (label = "Payment Delay" /\ exists n, v = VInt n /\ n <> 0 /\ payment_delay c = Some n).
Proof.
  assert (Hor : forall s d, d <> "" -> str_or s d <> "").
  { intros s d Hd. unfold str_or, truthy_str.
    destruct (String.eqb s "") eqn:E; simpl; [done |]. by apply String.eqb_neq in E. }
  assert (Hst : forall x, exists s, str_if_truthy x = VStr s /\ s <> "").
  { intros [s|]; simpl; [| by eexists]. unfold truthy_str.
    destruct (String.eqb s "") eqn:E; simpl; [by eexists |].
    apply String.eqb_neq in E. by eexists. }
  assert (Hsn : forall x, exists s, str_if_not_none x = VStr s /\ s <> "").
  { intros [n|]; simpl; [| by eexists]. eexists. split; [done | apply str_int_nonempty]. }
  assert (Hmo : forall x, exists s, months_if_not_none x = VStr s /\ s <> "").
  { intros [n|]; simpl; [| by eexists]. eexists. split; [done |].
    by apply append_nonempty_r. }
  assert (Hdo : forall x, exists s, dollars_if_not_none x = VStr s /\ s <> "").
  { intros [a|]; simpl; by eexists. }
  assert (Htr : forall x, exists s, tristate x = VStr s /\ s <> "").
  { intros [[|]|]; simpl; by eexists. }
  unfold data_dict. simpl.
  intros H.
  repeat match type of H with
         | (if ?b then _ else _) = _ => destruct b eqn:?; [injection H as <- |]
         end; try discriminate H;
    try (left; first [apply Hst | apply Hsn | apply Hmo | apply Hdo | apply Htr]);
    try (left; eexists; split; [reflexivity | by apply Hor]).
  - destruct (payment_delay c) as [n|] eqn:Hpd; simpl.
    + destruct (n =? 0) eqn:E; [left; by eexists |].
      right. split; [by apply String.eqb_eq |]. exists n. apply Z.eqb_neq in E. done.
    + left. by eexists.
  - left. destruct (license_count c =? -1); eexists; split; try done. apply str_int_nonempty.
Qed.

Lemma rows_are_never_blank_witness :
  exists s, VStr "NULL" = VStr s /\ s <> "".
Proof.
  destruct (rows_are_never_blank zero_contract "Contract End" (VStr "NULL") eq_refl)
    as [H | (H & _)]; [exact H | discriminate H].
Defined.

(** X12.  The text shown for the license count tells the count: it is
    "Unlimited" exactly for -1, and otherwise a numeral that reads back
    as the count. *)
Theorem license_count_can_be_read_back (c : SoftwareContract) :
  exists s,
    row "License Count" (data_dict c) = Some (VStr s) /\
    (s = "Unlimited" <-> license_count c = -1) /\
    (license_count c <> -1 -> int_of_str s = Some (license_count c)).
Proof.
  simpl. destruct (license_count c =? -1) eqn:E.
  - apply Z.eqb_eq in E. exists "Unlimited". by rewrite E.
  - apply Z.eqb_neq in E. exists (str_int (license_count c)).
    split; [done |]. split; [| intros _; apply int_of_str_str_int].
    split; [| done]. intros H.
    pose proof (int_of_str_str_int (license_count c)) as Hn. rewrite H in Hn. discriminate.
Qed.

Lemma license_count_can_be_read_back_witness :
  row "License Count" (data_dict zero_contract) = Some (VStr "0") /\
  int_of_str "0" = Some 0.
Proof.
  destruct (license_count_can_be_read_back zero_contract) as (s & Hrow & _ & Hback).
  assert (Hs : s = "0") by (vm_compute in Hrow; congruence).
  subst s. split; [exact Hrow | apply Hback; discriminate].
Defined.

Lemma round_half_even_bound (num den : Z) :
  0 <= num -> 0 < den ->
  0 <= round_half_even num den /\
  2 * Z.abs (round_half_even num den * den - num) <= den.
Proof.
  intros Hn Hd. unfold round_half_even.
  pose proof (Z.div_mod num den ltac:(lia)) as Hdm.
  pose proof (Z.mod_pos_bound num den Hd) as Hr.
  pose proof (Z.div_pos num den Hn Hd) as Hq.
  set (q := num / den) in *. set (r := num mod den) in *. clearbody q r.
  assert (Hlo : q * den - num = - r) by lia.
  assert (Hhi : (q + 1) * den - num = den - r) by lia.
  destruct (2 * r ?= den) eqn:E.
  - apply Z.compare_eq in E.
    destruct (Z.even q); [rewrite Hlo | rewrite Hhi]; split; lia.
  - rewrite Z.compare_lt_iff in E. rewrite Hlo. split; lia.
  - rewrite Z.compare_gt_iff in E. rewrite Hhi. split; lia.
Qed.

(** X13.  The amount shown for a finite float [m * 2^e] is the number
    of hundredths nearest to it: exact when the value is an integer, and
    otherwise within half a hundredth. *)
Theorem amount_shown_to_the_nearest_cent (negative : bool) (m : positive) (e : Z) :
  dollars_if_not_none (Some (S754_finite negative m e)) =
    VStr ("$" +:+ fixed2 negative (hundredths m e)) /\
  0 <= hundredths m e /\
  (0 <= e -> hundredths m e = Z.pos m * 2 ^ e * 100) /\
  (e < 0 -> 2 * Z.abs (hundredths m e * 2 ^ (- e) - Z.pos m * 100) <= 2 ^ (- e)).
Proof.
  split; [reflexivity |]. unfold hundredths.
  destruct (0 <=? e) eqn:E.
  - apply Z.leb_le in E. split; [| split; [done | lia]].
    pose proof (Z.pow_nonneg 2 e ltac:(lia)). nia.
  - apply Z.leb_gt in E.
    assert (Hden : 0 < 2 ^ (- e)) by (apply Z.pow_pos_nonneg; lia).
    destruct (round_half_even_bound (Z.pos m * 100) (2 ^ (- e)) ltac:(lia) Hden) as [H0 Hb].
    split; [exact H0 |]. split; [lia | intros _; exact Hb].
Qed.

Lemma amount_shown_to_the_nearest_cent_witness :
  dollars_if_not_none (Some (S754_finite false 5 (-3))) = VStr "$0.62" /\
  2 * Z.abs (62 * 8 - 500) <= 8.
Proof.
  destruct (amount_shown_to_the_nearest_cent false 5 (-3)) as (Hs & _ & _ & Hb).
  split; [exact Hs | apply Hb; reflexivity].
Defined.


(** ** The PDF viewer *)

Lemma b64_char_index (i : N) :
  (i < 64)%N -> b64_index (b64_char i) = Some i /\ Ascii.eqb (b64_char i) "=" = false.
Proof.
  intros Hi.
  assert (Hall : forallb b64_char_ok (map N.of_nat (seq 0 64)) = true)
    by (vm_compute; reflexivity).
  rewrite forallb_forall in Hall.
  assert (Hin : In i (map N.of_nat (seq 0 64))).
  { apply in_map_iff. exists (N.to_nat i). split; [apply N2Nat.id |].
    apply in_seq. lia. }
  specialize (Hall i Hin). unfold b64_char_ok in Hall.
  destruct (b64_index (b64_char i)) as [j|]; [| discriminate].
  apply andb_true_iff in Hall as [Hj Hne].
  apply N.eqb_eq in Hj. apply negb_true_iff in Hne. by subst.
Qed.

Lemma b64_char_in_alphabet (i : N) : (i < 64)%N -> is_b64_char (b64_char i) = true.
Proof.
  intros Hi. unfold is_b64_char. by destruct (b64_char_index i Hi) as [-> _].
Qed.

Lemma byte_bound (x : ascii) : (N_of_ascii x < 256)%N.
Proof. apply N_ascii_bounded. Qed.

Lemma string_ind3 (P : string -> Prop) :
  P "" ->
  (forall x, P (String x "")) ->
  (forall x y, P (String x (String y ""))) ->
  (forall x y z rest, P rest -> P (String x (String y (String z rest)))) ->
  forall s, P s.
Proof.
  intros H0 H1 H2 H3 s.
  assert (H : P s /\ (forall x, P (String x s)) /\ (forall x y, P (String x (String y s)))).
  { induction s as [|c s (IH0 & IH1 & IH2)].
    - by repeat split.
    - split; [apply IH1 |]. split; [intros x; apply IH2 |]. intros x y. by apply H3. }
  apply H.
Qed.

Ltac divlia := zify; Z.to_euclidean_division_equations; lia.

Lemma b64encode_3 (x y z : ascii) (rest : bytes) :
  b64encode (String x (String y (String z rest))) =
  String (b64_char ((N_of_ascii x * 65536 + N_of_ascii y * 256 + N_of_ascii z) / 262144))
    (String (b64_char ((N_of_ascii x * 65536 + N_of_ascii y * 256 + N_of_ascii z) / 4096 mod 64))
       (String (b64_char ((N_of_ascii x * 65536 + N_of_ascii y * 256 + N_of_ascii z) / 64 mod 64))
          (String (b64_char ((N_of_ascii x * 65536 + N_of_ascii y * 256 + N_of_ascii z) mod 64))
             (b64encode rest)))).
Proof. reflexivity. Qed.

Lemma b64encode_2 (x y : ascii) :
  b64encode (String x (String y "")) =
  String (b64_char ((N_of_ascii x * 1024 + N_of_ascii y * 4) / 4096))
    (String (b64_char ((N_of_ascii x * 1024 + N_of_ascii y * 4) / 64 mod 64))
       (String (b64_char ((N_of_ascii x * 1024 + N_of_ascii y * 4) mod 64)) "=")).
Proof. reflexivity. Qed.

Lemma b64encode_1 (x : ascii) :
  b64encode (String x "") =
  String (b64_char (N_of_ascii x * 16 / 64)) (String (b64_char (N_of_ascii x * 16 mod 64)) "==").
Proof. reflexivity. Qed.

Lemma atob_4 (c1 c2 c3 c4 : ascii) (rest : string) :
  atob (String c1 (String c2 (String c3 (String c4 rest)))) =
  (i1 ← b64_index c1;
   i2 ← b64_index c2;
   if Ascii.eqb c4 "=" then
     match rest with
     | EmptyString =>
         if Ascii.eqb c3 "=" then
           Some (String (ascii_of_N (i1 * 4 + i2 / 16)) EmptyString)
         else
           i3 ← b64_index c3;
           Some (String (ascii_of_N (i1 * 4 + i2 / 16))
                   (String (ascii_of_N (i2 mod 16 * 16 + i3 / 4)) EmptyString))
     | _ => None
     end
   else
     i3 ← b64_index c3;
     i4 ← b64_index c4;
     tail ← atob rest;
     Some (String (ascii_of_N (i1 * 4 + i2 / 16))
             (String (ascii_of_N (i2 mod 16 * 16 + i3 / 4))
                (String (ascii_of_N (i3 mod 4 * 64 + i4)) tail))))%N.
Proof. reflexivity. Qed.

(** X14.  The viewer page gets the bytes of the upload: decoding the
    base64 text [display_pdf] embeds gives the uploaded bytes back. *)
Theorem viewer_decodes_the_upload (b : bytes) : atob (b64encode b) = Some b.
Proof.
  induction b as [| x | x y | x y z rest IH] using string_ind3.
  - reflexivity.
  - rewrite b64encode_1, atob_4.
    pose proof (byte_bound x) as Hx. remember (N_of_ascii x) as a eqn:Ea.
    destruct (b64_char_index (a * 16 / 64)) as [-> _]; [divlia |].
    destruct (b64_char_index (a * 16 mod 64)) as [-> _]; [divlia |].
    simpl. replace (a * 16 / 64 * 4 + a * 16 mod 64 / 16)%N with a by divlia.
    by rewrite Ea, ascii_N_embedding.
  - rewrite b64encode_2, atob_4.
    pose proof (byte_bound x) as Hx. pose proof (byte_bound y) as Hy.
    remember (N_of_ascii x) as a eqn:Ea. remember (N_of_ascii y) as c eqn:Ec.
    destruct (b64_char_index ((a * 1024 + c * 4) / 4096)) as [-> _]; [divlia |].
    destruct (b64_char_index ((a * 1024 + c * 4) / 64 mod 64)) as [-> _]; [divlia |].
    destruct (b64_char_index ((a * 1024 + c * 4) mod 64)) as [H3 ->]; [divlia |].
    simpl. rewrite H3. simpl.
    replace ((a * 1024 + c * 4) / 4096 * 4 + (a * 1024 + c * 4) / 64 mod 64 / 16)%N
      with a by divlia.
    replace (((a * 1024 + c * 4) / 64 mod 64) mod 16 * 16 + (a * 1024 + c * 4) mod 64 / 4)%N
      with c by divlia.
    by rewrite Ea, Ec, !ascii_N_embedding.
  - rewrite b64encode_3, atob_4, IH.
    pose proof (byte_bound x) as Hx. pose proof (byte_bound y) as Hy.
    pose proof (byte_bound z) as Hz.
    remember (N_of_ascii x) as a eqn:Ea. remember (N_of_ascii y) as c eqn:Ec.
    remember (N_of_ascii z) as d eqn:Ed.
    destruct (b64_char_index ((a * 65536 + c * 256 + d) / 262144)) as [-> _]; [divlia |].
    destruct (b64_char_index ((a * 65536 + c * 256 + d) / 4096 mod 64)) as [-> _]; [divlia |].
    destruct (b64_char_index ((a * 65536 + c * 256 + d) / 64 mod 64)) as [-> _]; [divlia |].
    destruct (b64_char_index ((a * 65536 + c * 256 + d) mod 64)) as [-> ->]; [divlia |].
    simpl.
    replace ((a * 65536 + c * 256 + d) / 262144 * 4 +
             (a * 65536 + c * 256 + d) / 4096 mod 64 / 16)%N with a by divlia.
    replace (((a * 65536 + c * 256 + d) / 4096 mod 64) mod 16 * 16 +
             (a * 65536 + c * 256 + d) / 64 mod 64 / 4)%N with c by divlia.
    replace (((a * 65536 + c * 256 + d) / 64 mod 64) mod 4 * 64 +
             (a * 65536 + c * 256 + d) mod 64)%N with d by divlia.
    by rewrite Ea, Ec, Ed, !ascii_N_embedding.
Qed.


(** X15.  The base64 text [display_pdf] puts between the quotes of
    [atob('...')] has four characters for every three bytes, rounded up,
    all of the base64 alphabet: none is a quote, a backslash, an angle
    bracket or a line break. *)
Theorem viewer_text_stays_in_alphabet (b : bytes) :
  Forall (fun c => is_b64_char c = true) (list_ascii_of_string (b64encode b)) /\
  String.length (b64encode b) = (4 * ((String.length b + 2) / 3))%nat /\
  (forall c, is_b64_char c = true ->
     c <> "'"%char /\ c <> "<"%char /\ c <> ascii_of_nat 92 /\ c <> ascii_of_nat 10 /\
     c <> ascii_of_nat 34).
Proof.
  split; [| split].
  - induction b as [| x | x y | x y z rest IH] using string_ind3.
    + constructor.
    + rewrite b64encode_1. pose proof (byte_bound x).
      repeat constructor; apply b64_char_in_alphabet; divlia.
    + rewrite b64encode_2. pose proof (byte_bound x). pose proof (byte_bound y).
      repeat constructor; apply b64_char_in_alphabet; divlia.
    + rewrite b64encode_3. pose proof (byte_bound x). pose proof (byte_bound y).
      pose proof (byte_bound z).
      simpl. repeat (constructor; [apply b64_char_in_alphabet; divlia |]). exact IH.
  - induction b as [| x | x y | x y z rest IH] using string_ind3.
    + reflexivity.
    + reflexivity.
    + reflexivity.
    + rewrite b64encode_3. cbn [String.length]. rewrite IH.
      replace (S (S (S (String.length rest))) + 2)%nat
        with (String.length rest + 2 + 1 * 3)%nat by lia.
      rewrite Nat.div_add by lia. lia.
  - intros c Hc. repeat split; intros ->; vm_compute in Hc; discriminate Hc.
Qed.

(** ** The script *)

Lemma show_contract_data_record (env : Env) (c : column) (r : SoftwareContract)
    (w : World) (page : list (column * element)) :
  show_contract_data env c (Some r) (w, page) =
  (Ok tt, (w, (page ++ map (fun x => (c, Widget x)) (display_contract_data env r))%list)).
Proof.
  unfold show_contract_data, display_contract_data, mbind, M_bind, st. simpl.
  unfold mbind, M_bind, mret, M_ret. simpl. rewrite <- !app_assoc. reflexivity.
Qed.

Lemma display_pdf_open (c : column) (file : UploadedFile) (w : World)
    (page : list (column * element)) :
  closed file = false ->
  display_pdf c file (w, page) =
  (Ok tt, (w, (page ++
     [ (c, Widget (DownloadButton "📥 Download PDF" (buffer file) "contract.pdf"
                     "application/pdf"));
       (c, Component (pdf_js_html (b64encode (buffer file))) 800) ])%list)).
Proof.
  intros Hopen. unfold display_pdf, getvalue, of_result, mbind, M_bind, st. rewrite Hopen.
  simpl. rewrite <- !app_assoc. reflexivity.
Qed.

Lemma closed_upload_raises (env : Env) (self : ContractExtractor) (file : UploadedFile)
    (w : World) :
  closed file = true ->
  exists e w', extract_data_from_uploaded_file env self file w = (Raise e, w').
Proof.
  intros Hc. unfold extract_data_from_uploaded_file, mbind, M_bind, create_temporary_file,
    getvalue, of_result. rewrite Hc.
  destruct (fs w !! (mkstemp_name env +:+ ".pdf")); simpl; by eexists _, _.
Qed.

Lemma app_unfold (env : Env) (rt : Runtime)
    (secrets : list (string * list (string * string))) (file : UploadedFile)
    (api_key : string) (w : World) :
  secret secrets "config" "gemini_api_key" = Ok api_key ->
  app env rt secrets (Some file) (w, []) =
  try_except
    (contract_data ← lift (extract_data_from_uploaded_file env
                             (extractor_of rt secrets api_key) file);
     st Left (Widget (Subheader "PDF Document"));;
     display_pdf Left file;;
     show_contract_data env Right contract_data)
    (fun e =>
       st Page (Error ("Error processing PDF: " +:+ exn_str e));;
       st Page (Error "Please check the logs for more details.");;
       st Page (Code (format_exc rt e)))
    (w, page_top).
Proof.
  intros Hkey. unfold app, mbind at 1 2, M_bind, st. simpl.
  unfold mbind at 1, M_bind, of_result. rewrite Hkey. reflexivity.
Qed.

Lemma script_built (env : Env) (sdk : Sdk)
    (secrets : list (string * list (string * string))) (file : UploadedFile)
    (api_key : string) (c : Request -> result Response) (w : World) :
  secret secrets "config" "gemini_api_key" = Ok api_key ->
  new_client sdk api_key = Ok c ->
  script env sdk secrets (Some file) (w, []) =
  app env (runtime_of sdk c) secrets (Some file) (w, []).
Proof.
  intros Hkey Hc. unfold script, app, mbind at 1 2 6 7, M_bind, st. simpl.
  unfold mbind at 1 6, M_bind, of_result. rewrite Hkey.
  unfold mbind at 1, M_bind. rewrite Hc. reflexivity.
Qed.

(** X16.  The script looks the API key up and builds the client before
    its [try]: when the library refuses the key, the exception leaves the
    script uncaught and nothing is extracted.  Once the client is built,
    a run on an upload never raises.  When the extraction raises, the
    page shows the message of the exception, the hint and the trace, and
    neither the PDF nor a table.  When the extraction returns [None], the
    page shows the PDF, the subheader of the table and then the report of
    an AttributeError, and no table.  When it returns a record, the page
    shows the PDF and what [display_contract_data] builds for it. *)
Theorem script_reports_every_failure (env : Env) (sdk : Sdk)
    (secrets : list (string * list (string * string))) (file : UploadedFile)
    (api_key : string) (w : World) :
  secret secrets "config" "gemini_api_key" = Ok api_key ->
  (forall e, new_client sdk api_key = Raise e ->
     script env sdk secrets (Some file) (w, []) = (Raise e, (w, page_top))) /\
  (forall c, new_client sdk api_key = Ok c ->
     (exists w' page, script env sdk secrets (Some file) (w, []) = (Ok tt, (w', page))) /\
     (forall e w',
        extract_data_from_uploaded_file env
          (extractor_of (runtime_of sdk c) secrets api_key) file w = (Raise e, w') ->
        script env sdk secrets (Some file) (w, []) =
          (Ok tt, (w', (page_top ++ error_report (runtime_of sdk c) e)%list))) /\
     (forall w',
        extract_data_from_uploaded_file env
          (extractor_of (runtime_of sdk c) secrets api_key) file w = (Ok None, w') ->
        exists e, exn_class e = "AttributeError" /\
          script env sdk secrets (Some file) (w, []) =
          (Ok tt, (w', (page_top ++ pdf_pane file ++
                        [(Right, Widget (Subheader "Extracted Contract Information"))] ++
                        error_report (runtime_of sdk c) e)%list)) /\
          existsb is_table (page_top ++ pdf_pane file ++
                        [(Right, Widget (Subheader "Extracted Contract Information"))] ++
                        error_report (runtime_of sdk c) e)%list = false) /\
     (forall r w',
        extract_data_from_uploaded_file env
          (extractor_of (runtime_of sdk c) secrets api_key) file w = (Ok (Some r), w') ->
        script env sdk secrets (Some file) (w, []) =
          (Ok tt, (w', (page_top ++ pdf_pane file ++
                        map (fun x => (Right, Widget x)) (display_contract_data env r))%list)))).
Proof.
  intros Hkey. split.
  { intros e He. unfold script, mbind at 1 2, M_bind, st. simpl.
    unfold mbind at 1, M_bind, of_result. rewrite Hkey.
    unfold mbind at 1, M_bind. rewrite He. reflexivity. }
  intros c Hc. rewrite (script_built env sdk secrets file api_key c w Hkey Hc).
  rewrite (app_unfold env (runtime_of sdk c) secrets file api_key w Hkey).
  assert (Hopen : forall v w', extract_data_from_uploaded_file env
            (extractor_of (runtime_of sdk c) secrets api_key) file w = (Ok v, w') ->
            closed file = false).
  { intros v w' He. destruct (closed file) eqn:Hcl; [| done].
    destruct (closed_upload_raises env (extractor_of (runtime_of sdk c) secrets api_key)
                file w Hcl) as (e & w2 & H). congruence. }
  assert (Hraise : forall e w',
    extract_data_from_uploaded_file env
      (extractor_of (runtime_of sdk c) secrets api_key) file w = (Raise e, w') ->
    try_except
      (contract_data ← lift (extract_data_from_uploaded_file env
                               (extractor_of (runtime_of sdk c) secrets api_key) file);
       st Left (Widget (Subheader "PDF Document"));;
       display_pdf Left file;;
       show_contract_data env Right contract_data)
      (fun e =>
         st Page (Error ("Error processing PDF: " +:+ exn_str e));;
         st Page (Error "Please check the logs for more details.");;
         st Page (Code (format_exc (runtime_of sdk c) e)))
      (w, page_top) =
    (Ok tt, (w', (page_top ++ error_report (runtime_of sdk c) e)%list))).
  { intros e w' He. unfold try_except, mbind at 1, M_bind, lift. simpl. rewrite He.
    reflexivity. }
  assert (Hnone : forall w',
    extract_data_from_uploaded_file env
      (extractor_of (runtime_of sdk c) secrets api_key) file w = (Ok None, w') ->
    try_except
      (contract_data ← lift (extract_data_from_uploaded_file env
                               (extractor_of (runtime_of sdk c) secrets api_key) file);
       st Left (Widget (Subheader "PDF Document"));;
       display_pdf Left file;;
       show_contract_data env Right contract_data)
      (fun e =>
         st Page (Error ("Error processing PDF: " +:+ exn_str e));;
         st Page (Error "Please check the logs for more details.");;
         st Page (Code (format_exc (runtime_of sdk c) e)))
      (w, page_top) =
    (Ok tt, (w', (page_top ++ pdf_pane file ++
                  [(Right, Widget (Subheader "Extracted Contract Information"))] ++
                  error_report (runtime_of sdk c)
                    (Exn "AttributeError"
                       "'NoneType' object has no attribute 'software_system_name'" None))%list))).
  { intros w' He. unfold try_except, mbind at 1, M_bind, lift. simpl. rewrite He.
    unfold mbind at 1, M_bind, st at 1. simpl.
    unfold mbind at 1, M_bind. rewrite (display_pdf_open Left file _ _ (Hopen _ _ He)).
    reflexivity. }
  assert (Hsome : forall r w',
    extract_data_from_uploaded_file env
      (extractor_of (runtime_of sdk c) secrets api_key) file w = (Ok (Some r), w') ->
    try_except
      (contract_data ← lift (extract_data_from_uploaded_file env
                               (extractor_of (runtime_of sdk c) secrets api_key) file);
       st Left (Widget (Subheader "PDF Document"));;
       display_pdf Left file;;
       show_contract_data env Right contract_data)
      (fun e =>
         st Page (Error ("Error processing PDF: " +:+ exn_str e));;
         st Page (Error "Please check the logs for more details.");;
         st Page (Code (format_exc (runtime_of sdk c) e)))
      (w, page_top) =
    (Ok tt, (w', (page_top ++ pdf_pane file ++
                  map (fun x => (Right, Widget x)) (display_contract_data env r))%list))).
  { intros r w' He. unfold try_except, mbind at 1, M_bind, lift. simpl. rewrite He.
    unfold mbind at 1, M_bind, st at 1. simpl.
    unfold mbind at 1, M_bind. rewrite (display_pdf_open Left file _ _ (Hopen _ _ He)).
    rewrite show_contract_data_record. reflexivity. }
  split; [| split; [exact Hraise | split; [| exact Hsome]]].
  - destruct (extract_data_from_uploaded_file env
                (extractor_of (runtime_of sdk c) secrets api_key) file w)
      as [[[r|]|e] w'] eqn:He.
    + rewrite (Hsome r w' eq_refl). by eexists _, _.
    + rewrite (Hnone w' eq_refl). by eexists _, _.
    + rewrite (Hraise e w' eq_refl). by eexists _, _.
  - intros w' He. eexists. split; [| split; [exact (Hnone w' He) |]]; reflexivity.
Qed.

Lemma script_reports_every_failure_witness :
  script env0 sdk_silent secrets_empty_key (Some upload) (empty_world, []) =
    (Raise (Exn "ValueError" "Missing key inputs argument!" None), (empty_world, page_top)) /\
  script env0 sdk_silent secrets0 (Some upload) (empty_world, []) =
    (Ok tt,
     (add_log ERROR "Error extracting contract data from PDF: Connection refused" empty_world,
      (page_top ++
       error_report (runtime_of sdk_silent silent_client)
         (Exn "ConnectionError" "Connection refused" None))%list)) /\
  existsb is_table
    (snd (snd (script env0 sdk_garbled secrets0 (Some upload) (empty_world, [])))) = false.
Proof.
  split; [| split].
  - destruct (script_reports_every_failure env0 sdk_silent secrets_empty_key upload ""
                empty_world eq_refl) as [H _].
    apply H. reflexivity.
  - destruct (script_reports_every_failure env0 sdk_silent secrets0 upload "k-123"
                empty_world eq_refl) as [_ H].
    destruct (H silent_client eq_refl) as (_ & Hr & _).
    apply Hr. vm_compute. reflexivity.
  - destruct (script_reports_every_failure env0 sdk_garbled secrets0 upload "k-123"
                empty_world eq_refl) as [_ H].
    destruct (H (answering (JStr "I cannot read this document")) eq_refl)
      as (_ & _ & Hn & _).
    destruct (Hn empty_world) as (e & _ & -> & Ht); [vm_compute; reflexivity |].
    exact Ht.
Defined.

(** X17.  When the extraction returns a record, the page shows the PDF
    pane with the uploaded bytes in the left column and, in the right
    column, what [display_contract_data] builds for that record, the
    table of its rows among it. *)
Theorem app_shows_pdf_and_table (env : Env) (rt : Runtime)
    (secrets : list (string * list (string * string))) (file : UploadedFile)
    (api_key : string) (w w' : World) (r : SoftwareContract) :
  secret secrets "config" "gemini_api_key" = Ok api_key ->
  extract_data_from_uploaded_file env (extractor_of rt secrets api_key) file w
    = (Ok (Some r), w') ->
  app env rt secrets (Some file) (w, []) =
    (Ok tt, (w', (page_top ++ pdf_pane file ++
                  map (fun x => (Right, Widget x)) (display_contract_data env r))%list)) /\
  (Right, Widget (Html (to_html env (data_dict r)))) ∈
    snd (snd (app env rt secrets (Some file) (w, []))).
Proof.
  intros Hkey He.
  assert (Hopen : closed file = false).
  { destruct (closed file) eqn:Hc; [| done].
    destruct (closed_upload_raises env (extractor_of rt secrets api_key) file w Hc)
      as (e & w2 & H). congruence. }
  assert (Happ : app env rt secrets (Some file) (w, []) =
    (Ok tt, (w', (page_top ++ pdf_pane file ++
                  map (fun x => (Right, Widget x)) (display_contract_data env r))%list))).
  { rewrite (app_unfold env rt secrets file api_key w Hkey).
    unfold try_except, mbind at 1, M_bind, lift. simpl. rewrite He.
    unfold mbind at 1, M_bind, st at 1. simpl.
    unfold mbind at 1, M_bind. rewrite (display_pdf_open Left file _ _ Hopen).
    rewrite show_contract_data_record. reflexivity. }
  split; [exact Happ |]. rewrite Happ. simpl.
  do 7 apply list_elem_of_further. apply list_elem_of_here.
Qed.

Lemma app_shows_pdf_and_table_witness :
  (Right, Widget (Html (to_html env0 (data_dict (record_of "DEALER" (-1)))))) ∈
    snd (snd (app env0 rt0 secrets0 (Some upload) (empty_world, []))).
Proof.
  apply (app_shows_pdf_and_table env0 rt0 secrets0 upload "k-123" empty_world empty_world
           (record_of "DEALER" (-1))).
  - reflexivity.
  - vm_compute. reflexivity.
Defined.

(** X18.  Without an upload the script shows the prompt to upload and
    reads no secret.  With an upload and no API key in the secrets the
    KeyError is raised before anything is extracted: it is outside the
    [try] of the script. *)
Theorem app_reads_secrets_only_for_an_upload (env : Env) (rt : Runtime)
    (secrets : list (string * list (string * string))) (w : World) :
  app env rt secrets None (w, []) =
    (Ok tt, (w, (page_top ++
       [ (Page, Info "Please upload a PDF contract file to extract contract information.");
         (Left, Empty); (Right, Empty) ])%list)) /\
  (forall file,
     assoc "config" secrets = None \/
     (exists table, assoc "config" secrets = Some table /\
                    assoc "gemini_api_key" table = None) ->
     exists e, exn_class e = "KeyError" /\
       app env rt secrets (Some file) (w, []) = (Raise e, (w, page_top))).
Proof.
  split; [reflexivity |].
  intros file Hmiss. unfold app, mbind at 1 2, M_bind, st. simpl.
  unfold mbind at 1, M_bind, of_result, secret.
  destruct Hmiss as [-> | (table & -> & ->)]; eexists; (split; [| reflexivity]); reflexivity.
Qed.

Lemma app_reads_secrets_only_for_an_upload_witness :
  fst (app env0 rt0 [ ("config", [ ("few_shot_examples_path", "examples.json") ]) ]
         (Some upload) (empty_world, [])) =
  Raise (Exn "KeyError" "'gemini_api_key'" None).
Proof.
  destruct (app_reads_secrets_only_for_an_upload env0 rt0
              [ ("config", [ ("few_shot_examples_path", "examples.json") ]) ] empty_world)
    as [_ H].
  destruct (H upload) as (e & _ & He).
  - right. eexists. split; reflexivity.
  - assert (Hc : fst (app env0 rt0 [ ("config", [ ("few_shot_examples_path", "examples.json") ]) ]
                        (Some upload) (empty_world, [])) =
                 Raise (Exn "KeyError" "'gemini_api_key'" None)) by (vm_compute; reflexivity).
    rewrite He in Hc. rewrite He. exact Hc.
Defined.

Lemma viewer_text_stays_in_alphabet_witness :
  is_b64_char "/" = true /\ "/"%char <> "'"%char.
Proof.
  destruct (viewer_text_stays_in_alphabet "%PDF") as (_ & _ & H).
  destruct (H "/"%char eq_refl) as (Hq & _). split; [reflexivity | exact Hq].
Defined.
